(** * HFRAT front end: session store, HTTP client wrapper, route guard,
    login page and dashboard filters

  A shallow embedding of the JavaScript sources

    - [src/auth/AuthContext.jsx]   (decodeToken, AuthProvider)
    - [src/api/axios.js]           (response interceptor)
    - [pages/Login.jsx]            (validate, handleSubmit)
    - [components/ProtectedRoute.jsx]
    - [pages/monitor/Dashboard.jsx] (filters, stat cards, chartData)

  React state is modelled by explicit state passing: a setter call
  [setX(v)] becomes a record update, and a closure such as
  [isAuthenticated] is a function of the state of the render it belongs
  to.  [localStorage] is a finite map from keys to strings. *)

From Stdlib Require Import ZArith String Ascii List Bool Lia DecimalString.
From Stdlib Require Import Sorted.
From stdpp Require Import gmap strings list.

Local Set Warnings "-register-all".
Local Open Scope Z_scope.
Local Open Scope string_scope.

(** ** JavaScript values *)

Module Js.

(** The values that [JSON.parse] can return, together with [undefined].
    Numbers are the integers (the NumericDate of a token and HTTP status
    codes); rounding of doubles is not modelled.  A string is a sequence
    of 8-bit code units. *)
Inductive value : Type :=
| VUndefined
| VNull
| VBool (b : bool)
| VNum (n : Z)
| VStr (s : string)
| VArr (items : list value)
| VObj (members : list (string * value)).

(** [!!v] *)
Definition truthy (v : value) : bool :=
  match v with
  | VUndefined | VNull => false
  | VBool b => b
  | VNum n => negb (n =? 0)%Z
  | VStr s => negb (String.eqb s "")
  | VArr _ | VObj _ => true
  end.

Definition nullish (v : value) : bool :=
  match v with
  | VUndefined | VNull => true
  | _ => false
  end.

(** Own member lookup of an object literal. *)
Fixpoint member (k : string) (ms : list (string * value)) : option value :=
  match ms with
  | [] => None
  | (k', v) :: ms' => if String.eqb k k' then Some v else member k ms'
  end.

(** [v.k] for a [v] that is neither [null] nor [undefined]; none of the
    keys read by the program is a built-in property of a string, a
    number, a boolean or an array, so those give [undefined]. *)
Definition get (v : value) (k : string) : value :=
  match v with
  | VObj ms => default VUndefined (member k ms)
  | _ => VUndefined
  end.

(** [v?.k] *)
Definition opt_get (v : value) (k : string) : value :=
  if nullish v then VUndefined else get v k.

(** [v === s] for a string [s] *)
Definition strict_eq_str (v : value) (s : string) : bool :=
  match v with
  | VStr t => String.eqb t s
  | _ => false
  end.

(** [v === null] *)
Definition is_null (v : value) : bool :=
  match v with
  | VNull => true
  | _ => false
  end.

(** [s.split(sep)] for a one-character separator. *)
Fixpoint split (sep : ascii) (s : string) : list string :=
  match s with
  | EmptyString => [EmptyString]
  | String c s' =>
      if Ascii.eqb c sep then EmptyString :: split sep s'
      else match split sep s' with
           | seg :: rest => String c seg :: rest
           | [] => [String c EmptyString]
           end
  end.

(** White space of [\s] and of [trim] among the 8-bit code units:
    TAB, LF, VT, FF, CR, SP and NBSP. *)
Definition is_space (c : ascii) : bool :=
  let n := nat_of_ascii c in
  ((9 <=? n) && (n <=? 13) || (n =? 32) || (n =? 160))%nat.

(** [!s.trim()]: nothing is left once the white space is removed from
    both ends. *)
Fixpoint blank (s : string) : bool :=
  match s with
  | EmptyString => true
  | String c s' => is_space c && blank s'
  end.

(** A double that is either an integer or [NaN]. *)
Definition number : Type := option Z.

Definition mul (a : number) (k : Z) : number := (fun x => (x * k)%Z) <$> a.

(** [a < b] and [a > b]; every comparison with [NaN] is false. *)
Definition lt (a : number) (b : Z) : bool :=
  match a with Some x => (x <? b)%Z | None => false end.
Definition gt (a : number) (b : Z) : bool :=
  match a with Some x => (b <? x)%Z | None => false end.

End Js.
Import Js.

(** ** Built-in functions of the browser

  The program calls these functions of the platform; their results are
  taken as given.  [None] stands for a thrown exception ([atob],
  [JSON.parse]) or for the result [undefined] ([JSON.stringify]). *)

Record Platform : Type := {
  atob : string -> option string;
  JSON_parse : string -> option value;
  JSON_stringify : value -> option string;
  (** [String(n)] for a number *)
  NumberToString : Z -> string;
  (** [String(v)] for an array or an object *)
  ObjectToString : value -> string;
  (** [Number(s)] for a string; [None] is [NaN] *)
  StringToNumber : string -> number;
  (** [s.toUpperCase()] *)
  toUpperCase : string -> string
}.

Section Conversions.
Context (P : Platform).

(** The conversion applied by [localStorage.setItem] to its value. *)
Definition ToString (v : value) : string :=
  match v with
  | VUndefined => "undefined"
  | VNull => "null"
  | VBool true => "true"
  | VBool false => "false"
  | VNum n => NumberToString P n
  | VStr s => s
  | VArr _ | VObj _ => ObjectToString P v
  end.

(** The conversion applied by [*] and [<] to an operand. *)
Definition ToNumber (v : value) : number :=
  match v with
  | VUndefined => None
  | VNull => Some 0
  | VBool true => Some 1
  | VBool false => Some 0
  | VNum n => Some n
  | VStr s => StringToNumber P s
  | VArr _ | VObj _ => StringToNumber P (ObjectToString P v)
  end.
End Conversions.

(** ** The browser: [localStorage] and [window.location] *)

Record Browser : Type := {
  localStorage : gmap string string;
  (** the URLs assigned to [window.location.href], oldest first; each
      assignment is a full page navigation *)
  location_assigned : list string
}.

Definition getItem (k : string) (br : Browser) : option string :=
  localStorage br !! k.

Definition setItem (k v : string) (br : Browser) : Browser :=
  {| localStorage := <[k := v]> (localStorage br);
     location_assigned := location_assigned br |}.

Definition removeItem (k : string) (br : Browser) : Browser :=
  {| localStorage := delete k (localStorage br);
     location_assigned := location_assigned br |}.

Definition assign_location (url : string) (br : Browser) : Browser :=
  {| localStorage := localStorage br;
     location_assigned := location_assigned br ++ [url] |}.

(** ** Session store: [src/auth/AuthContext.jsx] *)

Module AuthContext.

(** The four [useState] cells of [AuthProvider]. *)
Record AuthState : Type := {
  user : value;
  role : value;
  token : value;
  loading : bool
}.

(** [useState(null)] three times and [useState(true)]. *)
Definition initial : AuthState :=
  {| user := VNull; role := VNull; token := VNull; loading := true |}.

Record World : Type := {
  auth : AuthState;
  browser : Browser
}.

(** How a block of statements ends: normally, or by an exception that
    nothing catches; either way with the state reached so far. *)
Inductive completion (A : Type) : Type :=
| Normal (a : A)
| Abrupt (a : A).
Arguments Normal {A} a.
Arguments Abrupt {A} a.

Definition final {A : Type} (c : completion A) : A :=
  match c with
  | Normal a => a
  | Abrupt a => a
  end.

Definition setLoading (b : bool) (w : World) : World :=
  {| auth := {| user := user (auth w); role := role (auth w);
                token := token (auth w); loading := b |};
     browser := browser w |}.

Definition setToken (v : value) (w : World) : World :=
  {| auth := {| user := user (auth w); role := role (auth w);
                token := v; loading := loading (auth w) |};
     browser := browser w |}.

Definition setUser (v : value) (w : World) : World :=
  {| auth := {| user := v; role := role (auth w);
                token := token (auth w); loading := loading (auth w) |};
     browser := browser w |}.

Definition setRole (v : value) (w : World) : World :=
  {| auth := {| user := user (auth w); role := v;
                token := token (auth w); loading := loading (auth w) |};
     browser := browser w |}.

Definition on_browser (f : Browser -> Browser) (w : World) : World :=
  {| auth := auth w; browser := f (browser w) |}.

(** [logout]: the three setters with [null], then the three
    [removeItem] calls. *)
Definition logout (w : World) : World :=
  on_browser (removeItem "role")
    (on_browser (removeItem "user")
       (on_browser (removeItem "access_token")
          (setRole VNull (setUser VNull (setToken VNull w))))).

(** [isAuthenticated]: [!!token && !!user && !!role]. *)
Definition isAuthenticated (st : AuthState) : bool :=
  truthy (token st) && truthy (user st) && truthy (role st).

(** [token.split('.')[1]] as [atob] receives it: a token with no dot has
    [undefined] there, which [atob] converts to the string of that
    name. *)
Definition payload_segment (t : string) : string :=
  default "undefined" (split "." t !! 1%nat).

(** The three keys of the persisted session. *)
Definition all_present (br : Browser) : Prop :=
  is_Some (getItem "access_token" br) /\ is_Some (getItem "user" br)
  /\ is_Some (getItem "role" br).

Definition all_absent (br : Browser) : Prop :=
  getItem "access_token" br = None /\ getItem "user" br = None
  /\ getItem "role" br = None.

Definition no_partial_session (br : Browser) : Prop :=
  all_present br \/ all_absent br.

Section WithPlatform.
Context (P : Platform).

(** [decodeToken]: the second dot-separated segment, through [atob] and
    [JSON.parse]; [null] when anything in the [try] block throws.  A
    token that is not a string has no [split] method. *)
Definition decodeToken (tok : value) : value :=
  match tok with
  | VStr t =>
      let payload := payload_segment t in
      match atob P payload with
      | Some bin => default VNull (JSON_parse P bin)
      | None => VNull
      end
  | _ => VNull
  end.

(** [login]: the three setters, then the three [setItem] calls. *)
Definition login (accessToken userData userRole : value) (w : World)
  : World :=
  on_browser (setItem "role" (ToString P userRole))
    (on_browser
       (setItem "user" (default "undefined" (JSON_stringify P userData)))
       (on_browser (setItem "access_token" (ToString P accessToken))
          (setRole userRole (setUser userData (setToken accessToken w))))).

(** [isTokenExpired], with [now] the value of [Date.now()]. *)
Definition isTokenExpired (st : AuthState) (now : Z) : bool :=
  if negb (truthy (token st)) then true
  else
    let decoded := decodeToken (token st) in
    if negb (truthy decoded) then true
    else if negb (truthy (get decoded "exp")) then true
    else lt (mul (ToNumber P (get decoded "exp")) 1000) now.

(** The effect that [AuthProvider] runs once after its first render.
    [JSON.parse(storedUser)] may throw after [setToken] was called; the
    effect then ends there. *)
Definition AuthProvider_mount (now : Z) (w : World) : completion World :=
  match getItem "access_token" (browser w),
        getItem "user" (browser w),
        getItem "role" (browser w) with
  | Some storedToken, Some storedUser, Some storedRole =>
      if negb (String.eqb storedToken "") && negb (String.eqb storedUser "")
         && negb (String.eqb storedRole "")
      then
        let decoded := decodeToken (VStr storedToken) in
        if truthy decoded
           && gt (mul (ToNumber P (get decoded "exp")) 1000) now
        then
          match JSON_parse P storedUser with
          | Some u =>
              Normal (setLoading false
                        (setRole (VStr storedRole)
                           (setUser u (setToken (VStr storedToken) w))))
          | None => Abrupt (setToken (VStr storedToken) w)
          end
        else Normal (setLoading false (logout w))
      else Normal (setLoading false w)
  | _, _, _ => Normal (setLoading false w)
  end.

End WithPlatform.

End AuthContext.

(** ** HTTP client wrapper: [src/api/axios.js] *)

Module Axios.

Record Response : Type := {
  status : Z;
  data : value
}.

(** The error object of a failed request: [error.response] is absent
    when no response arrived (time-out, network unreachable). *)
Record AxiosError : Type := {
  response : option Response;
  message : string
}.

(** The promise returned by a request, once settled. *)
Inductive Settled : Type :=
| Fulfilled (r : Response)
| Rejected (e : AxiosError).

(** [error.response?.status === 401] *)
Definition status_is_401 (error : AxiosError) : bool :=
  match response error with
  | Some r => (status r =? 401)%Z
  | None => false
  end.

(** The second handler of [api.interceptors.response.use]: its effect on
    the browser.  It returns [Promise.reject(error)] in every case. *)
Definition on_response_error (error : AxiosError) (br : Browser) : Browser :=
  if status_is_401 error
  then assign_location "/login"
         (removeItem "user" (removeItem "access_token" br))
  else br.

(** Both handlers: a response is passed through, an error is handled and
    rejected again. *)
Definition response_interceptor (s : Settled) (br : Browser)
  : Browser * Settled :=
  match s with
  | Fulfilled r => (br, Fulfilled r)
  | Rejected e => (on_response_error e br, Rejected e)
  end.

End Axios.

(** ** Login page: [pages/Login.jsx] *)

Module Login.
Import AuthContext Axios.

(** The [useState] cells of [Login], and the paths handed to the
    router's [navigate], oldest first. *)
Record Page : Type := {
  email : string;
  password : string;
  errors : value;
  submitting : bool;
  navigated : list string
}.

(** [/\S+@\S+\.\S+/.test(s)].  [dot_tail l]: after one or more [\S],
    the rest [l] continues some [\S*] with a dot and one [\S]. *)
Definition starts_nonspace (l : list ascii) : bool :=
  match l with
  | c :: _ => negb (is_space c)
  | [] => false
  end.

Fixpoint dot_tail (l : list ascii) : bool :=
  match l with
  | c :: l' =>
      (Ascii.eqb c "." && starts_nonspace l')
      || (negb (is_space c) && dot_tail l')
  | [] => false
  end.

Definition domain_part (l : list ascii) : bool :=
  match l with
  | c :: l' => negb (is_space c) && dot_tail l'
  | [] => false
  end.

Fixpoint search_at (prev_nonspace : bool) (l : list ascii) : bool :=
  match l with
  | c :: l' =>
      (prev_nonspace && Ascii.eqb c "@" && domain_part l')
      || search_at (negb (is_space c)) l'
  | [] => false
  end.

Definition email_pattern_test (s : string) : bool :=
  search_at false (list_ascii_of_string s).

(** [validate]: the members of [newErrors], in insertion order. *)
Definition validate (pg : Page) : list (string * value) :=
  (if blank (email pg) then [("email", VStr "Email is required")]
   else if negb (email_pattern_test (email pg))
        then [("email", VStr "Email is invalid")]
        else [])
  ++
  (if String.eqb (password pg) "" then
     [("password", VStr "Password is required")]
   else if (String.length (password pg) <? 6)%nat
        then [("password", VStr "Password must be at least 6 characters")]
        else []).

Definition setErrors (e : value) (pg : Page) : Page :=
  {| email := email pg; password := password pg; errors := e;
     submitting := submitting pg; navigated := navigated pg |}.

(** [setLoading] of the page (the cell is called [loading] there). *)
Definition setSubmitting (b : bool) (pg : Page) : Page :=
  {| email := email pg; password := password pg; errors := errors pg;
     submitting := b; navigated := navigated pg |}.

Definition navigate (path : string) (pg : Page) : Page :=
  {| email := email pg; password := password pg; errors := errors pg;
     submitting := submitting pg; navigated := navigated pg ++ [path] |}.

(** What the [catch] clause can receive: the rejection of the request,
    or a [TypeError] raised inside the [try] block. *)
Inductive Thrown : Type :=
| RequestFailed (e : AxiosError)
| TypeError.

Definition thrown_response (ex : Thrown) : option Response :=
  match ex with
  | RequestFailed e => response e
  | TypeError => None
  end.

(** [error.response?.data?.k] *)
Definition thrown_body_member (ex : Thrown) (k : string) : value :=
  match thrown_response ex with
  | Some r => opt_get (data r) k
  | None => VUndefined
  end.

(** The [catch] clause of [handleSubmit]. *)
Definition on_catch (ex : Thrown) (pg : Page) : Page :=
  if truthy (thrown_body_member ex "error") then
    setErrors (VObj [("api", thrown_body_member ex "error")]) pg
  else if truthy (thrown_body_member ex "errors") then
    setErrors (thrown_body_member ex "errors") pg
  else if match thrown_response ex with
          | Some r => (status r =? 401)%Z
          | None => false
          end then
    setErrors (VObj [("api", VStr "Invalid email or password")]) pg
  else if match ex with
          | RequestFailed e => String.eqb (message e) "Network Error"
          | TypeError => false
          end then
    setErrors (VObj [("api", VStr
      "Cannot connect to server. Please check if the backend is running.")]) pg
  else
    setErrors (VObj [("api", VStr
      "An unexpected error occurred. Please try again.")]) pg.

(** The [switch] on [role.toUpperCase()] after a successful login. *)
Definition landing_after_login (upper_role : string) : string :=
  if String.eqb upper_role "ADMIN" then "/admin/facilities"
  else if String.eqb upper_role "REPORTER" then "/report"
  else if String.eqb upper_role "MONITOR" then "/dashboard"
  else "/".

Section WithPlatform.
Context (P : Platform).

(** The [try] block after the request has been fulfilled. *)
Definition on_fulfilled (r : Response) (pg : Page) (w : World)
  : (Page * World) + (Thrown * Page * World) :=
  if nullish (data r) then inr (TypeError, pg, w)
  else
    let access_token := get (data r) "access_token" in
    let role := get (data r) "role" in
    let facility_id := get (data r) "facility_id" in
    let w' := login P access_token
                (VObj [("email", VStr (email pg));
                       ("facility_id", facility_id)]) role w in
    match role with
    | VStr r =>
        inl (navigate (landing_after_login (toUpperCase P r)) pg, w')
    | _ => inr (TypeError, pg, w')
    end.

(** [handleSubmit], given how the request [api.post('/auth/login', ...)]
    settles before the response interceptor sees it. *)
Definition handleSubmit (reply : Settled) (pg : Page) (w : World)
  : Page * World :=
  let pg := setErrors (VObj []) pg in
  match validate pg with
  | (_ :: _) as validationErrors =>
      (setErrors (VObj validationErrors) pg, w)
  | [] =>
      let pg := setSubmitting true pg in
      let '(br, settled) := response_interceptor reply (browser w) in
      let w := on_browser (fun _ => br) w in
      match settled with
      | Fulfilled r =>
          match on_fulfilled r pg w with
          | inl (pg', w') => (setSubmitting false pg', w')
          | inr (ex, pg', w') => (setSubmitting false (on_catch ex pg'), w')
          end
      | Rejected e => (setSubmitting false (on_catch (RequestFailed e) pg), w)
      end
  end.

End WithPlatform.

(** The banner of the page: [errors.api && <p>{errors.api}</p>]. *)
Definition api_banner (pg : Page) : option value :=
  if truthy (opt_get (errors pg) "api") then Some (get (errors pg) "api")
  else None.

End Login.

(** ** Route guard: [components/ProtectedRoute.jsx] *)

Module Guard.
Import AuthContext.

(** What one evaluation of the component gives. *)
Inductive Rendered : Type :=
| LoadingPlaceholder
| Navigate (to : string)
| Children
| Crashed.


(** [allowedRoles.includes(v)] for an array of strings. *)
Definition includes (allowedRoles : list string) (v : value) : bool :=
  existsb (strict_eq_str v) allowedRoles.

(** The [switch] of the wrong-role branch. *)
Definition role_home (upper_role : value) : string :=
  if strict_eq_str upper_role "ADMIN" then "/admin/facilities"
  else if strict_eq_str upper_role "REPORTER" then "/report"
  else if strict_eq_str upper_role "MONITOR" then "/dashboard"
  else "/login".

Section WithPlatform.
Context (P : Platform).

(** [role?.toUpperCase()]; [None] when the call throws, which it does
    for a value that is neither nullish nor a string. *)
Definition optional_toUpperCase (r : value) : option value :=
  match r with
  | VUndefined | VNull => Some VUndefined
  | VStr s => Some (VStr (toUpperCase P s))
  | _ => None
  end.

Definition ProtectedRoute (st : AuthState) (allowedRoles : list string)
  : Rendered :=
  if loading st then LoadingPlaceholder
  else if negb (isAuthenticated st) then Navigate "/login"
  else if (0 <? length allowedRoles)%nat then
    match optional_toUpperCase (role st) with
    | None => Crashed
    | Some r =>
        if negb (includes allowedRoles r) then Navigate (role_home r)
        else Children
    end
  else Children.

End WithPlatform.

End Guard.

(** ** Dashboard: [pages/monitor/Dashboard.jsx] *)

Module Dashboard.

(** One element of [response.data.facilities]. *)
Record Facility : Type := {
  facility_name : value;
  country : value;
  city : value;
  icu_beds_available : value;
  ventilators_available : value;
  staff_on_duty : value;
  critical : value;
  last_update : value
}.

(** The two filter cells; the empty string is "all". *)
Record Filters : Type := {
  selectedCountry : string;
  selectedCity : string
}.

Definition no_filters : Filters :=
  {| selectedCountry := ""; selectedCity := "" |}.

Definition nonempty (s : string) : bool := negb (String.eqb s "").

(** [filteredFacilities] *)
Definition filteredFacilities (facilities : list Facility) (flt : Filters)
  : list Facility :=
  let result := facilities in
  let result :=
    if nonempty (selectedCountry flt)
    then List.filter (fun f => strict_eq_str (country f) (selectedCountry flt))
           result
    else result in
  let result :=
    if nonempty (selectedCity flt)
    then List.filter (fun f => strict_eq_str (city f) (selectedCity flt))
           result
    else result in
  result.

(** The two predicates of the specification: each one holds of every
    facility when its selection is empty. *)
Definition country_predicate (flt : Filters) (f : Facility) : bool :=
  if String.eqb (selectedCountry flt) "" then true
  else strict_eq_str (country f) (selectedCountry flt).

Definition city_predicate (flt : Filters) (f : Facility) : bool :=
  if String.eqb (selectedCity flt) "" then true
  else strict_eq_str (city f) (selectedCity flt).

(** [onChange] of the country select *)
Definition onCountryChange (v : string) (flt : Filters) : Filters :=
  {| selectedCountry := v; selectedCity := "" |}.

(** [onChange] of the city select *)
Definition onCityChange (v : string) (flt : Filters) : Filters :=
  {| selectedCountry := selectedCountry flt; selectedCity := v |}.

Definition clearFilters (flt : Filters) : Filters :=
  {| selectedCountry := ""; selectedCity := "" |}.

(** The stat cards, all computed from [filteredFacilities]. *)
Definition card_total (fs : list Facility) : nat := length fs.

Definition card_critical (fs : list Facility) : nat :=
  length (List.filter (fun f => truthy (critical f)) fs).

Definition card_no_data (fs : list Facility) : nat :=
  length (List.filter (fun f => is_null (last_update f)) fs).

Definition card_active (fs : list Facility) : nat :=
  length (List.filter (fun f => negb (is_null (last_update f))) fs).

(** The three counts of [chartData]. *)
Definition criticalCount (fs : list Facility) : nat :=
  length (List.filter (fun f => truthy (critical f)) fs).

Definition noDataCount (fs : list Facility) : nat :=
  length (List.filter (fun f => is_null (last_update f)) fs).

Definition activeCount (fs : list Facility) : nat :=
  length (List.filter
            (fun f => negb (is_null (last_update f))
                      && negb (truthy (critical f))) fs).

(** An entry of [statusData]; [count] is its [value] member. *)
Record StatusItem : Type := {
  name : string;
  count : nat;
  color : string
}.

(** [chartData.statusData]: the slices of the pie chart; a slice with
    count zero is left out. *)
Definition statusData (fs : list Facility) : list StatusItem :=
  List.filter (fun item => (0 <? count item)%nat)
    [ {| name := "Critical"; count := criticalCount fs; color := "#EF4444" |};
      {| name := "No Data"; count := noDataCount fs; color := "#F59E0B" |};
      {| name := "Active"; count := activeCount fs; color := "#10B981" |} ].

End Dashboard.

(** ** Runs of the session store

    The worlds that the provider goes through once its mount effect has
    completed: [login] and [logout] are called from event handlers, and
    every settled request passes through the response interceptor. *)

Inductive mounted (P : Platform) : AuthContext.World -> Prop :=
| mounted_effect (now : Z) (br : Browser) (w : AuthContext.World) :
    AuthContext.AuthProvider_mount P now
      {| AuthContext.auth := AuthContext.initial;
         AuthContext.browser := br |} = AuthContext.Normal w ->
    mounted P w
| mounted_login (t u r : value) (w : AuthContext.World) :
    mounted P w -> mounted P (AuthContext.login P t u r w)
| mounted_logout (w : AuthContext.World) :
    mounted P w -> mounted P (AuthContext.logout w)
| mounted_settled (s : Axios.Settled) (w : AuthContext.World) :
    mounted P w ->
    mounted P
      (AuthContext.on_browser
         (fun br => fst (Axios.response_interceptor s br)) w).

(** ** A platform for running the model

    [atob] is the forgiving-base64 decoding of the HTML standard,
    numbers print in decimal and [toUpperCase] acts on the ASCII
    letters.  [JSON.parse] and [JSON.stringify] are given by the table
    of the texts that the examples below use and answer [None]
    elsewhere, and no example converts a string or an object to a
    number: only those uses are meaningful. *)

Module Sample.

(** Upper case of the ASCII letters; other characters are kept. *)
Definition upper_ascii (c : ascii) : ascii :=
  let n := nat_of_ascii c in
  if ((97 <=? n) && (n <=? 122))%nat then ascii_of_nat (n - 32) else c.

Fixpoint ascii_upper (s : string) : string :=
  match s with
  | EmptyString => EmptyString
  | String c s' => String (upper_ascii c) (ascii_upper s')
  end.

Definition strip_space (l : list ascii) : list ascii :=
  List.filter
    (fun c => let n := nat_of_ascii c in
              negb ((n =? 9) || (n =? 10) || (n =? 12) || (n =? 13)
                    || (n =? 32))%nat) l.

(** One or two trailing [=] are dropped when the length is a multiple
    of four. *)
Definition strip_padding (l : list ascii) : list ascii :=
  if (length l mod 4 =? 0)%nat then
    match rev l with
    | "="%char :: "="%char :: r => rev r
    | "="%char :: r => rev r
    | _ => l
    end
  else l.

Definition sextet (c : ascii) : option N :=
  let n := N_of_ascii c in
  if ((65 <=? n) && (n <=? 90))%N then Some (n - 65)%N
  else if ((97 <=? n) && (n <=? 122))%N then Some (n - 71)%N
  else if ((48 <=? n) && (n <=? 57))%N then Some (n + 4)%N
  else if (n =? 43)%N then Some 62%N
  else if (n =? 47)%N then Some 63%N
  else None.

Fixpoint sextets (l : list ascii) : option (list N) :=
  match l with
  | [] => Some []
  | c :: l' =>
      match sextet c, sextets l' with
      | Some x, Some xs => Some (x :: xs)
      | _, _ => None
      end
  end.

Fixpoint octets (l : list N) : list ascii :=
  match l with
  | a :: b :: c :: d :: rest =>
      let x := (a * 262144 + b * 4096 + c * 64 + d)%N in
      ascii_of_N (x / 65536) :: ascii_of_N (x / 256 mod 256)
        :: ascii_of_N (x mod 256) :: octets rest
  | [a; b; c] =>
      let x := ((a * 4096 + b * 64 + c) / 4)%N in
      [ascii_of_N (x / 256); ascii_of_N (x mod 256)]
  | [a; b] => [ascii_of_N ((a * 64 + b) / 16)]
  | _ => []
  end.

Definition forgiving_base64_decode (s : string) : option string :=
  let l := strip_padding (strip_space (list_ascii_of_string s)) in
  if (length l mod 4 =? 1)%nat then None
  else (fun xs => string_of_list_ascii (octets xs)) <$> sextets l.

(** The double quote, for writing JSON texts. *)
Definition q : string := String "034"%char EmptyString.

Definition exp_2000000000 : string := "{" ++ q ++ "exp" ++ q ++ ":2000000000}".
Definition exp_1000000000 : string := "{" ++ q ++ "exp" ++ q ++ ":1000000000}".
Definition sub_u1 : string :=
  "{" ++ q ++ "sub" ++ q ++ ":" ++ q ++ "u1" ++ q ++ "}".
Definition user_text : string :=
  "{" ++ q ++ "email" ++ q ++ ":" ++ q ++ "ana@clinic.org" ++ q ++ ","
      ++ q ++ "facility_id" ++ q ++ ":7}".

Definition user_record : value :=
  VObj [("email", VStr "ana@clinic.org"); ("facility_id", VNum 7)].

Definition parse_table : list (string * value) :=
  [ (exp_2000000000, VObj [("exp", VNum 2000000000)]);
    (exp_1000000000, VObj [("exp", VNum 1000000000)]);
    (sub_u1, VObj [("sub", VStr "u1")]);
    (user_text, user_record) ].

Definition is_user_record (v : value) : bool :=
  match v with
  | VObj [(k1, VStr e); (k2, VNum 7)] =>
      String.eqb k1 "email" && String.eqb e "ana@clinic.org"
      && String.eqb k2 "facility_id"
  | _ => false
  end.

Definition platform : Platform :=
  {| atob := forgiving_base64_decode;
     JSON_parse := fun s => member s parse_table;
     JSON_stringify :=
       fun v => if is_user_record v then Some user_text else None;
     NumberToString := fun n => NilZero.string_of_int (Z.to_int n);
     ObjectToString := fun _ => "[object Object]";
     StringToNumber := fun _ => None;
     toUpperCase := ascii_upper |}.

(** Three tokens: expiry in 2033, expiry in 2001, no expiry claim. *)
Definition token_2033 : string :=
  "eyJhbGciOiJIUzI1NiJ9.eyJleHAiOjIwMDAwMDAwMDB9.c2ln".
Definition token_2001 : string :=
  "eyJhbGciOiJIUzI1NiJ9.eyJleHAiOjEwMDAwMDAwMDB9.c2ln".
Definition token_no_exp : string :=
  "eyJhbGciOiJIUzI1NiJ9.eyJzdWIiOiJ1MSJ9.c2ln".

(** A token whose payload segment is written in the URL-safe alphabet
    (it has [_] where base64 has [/]); its expiry is in 2033. *)
Definition token_url_safe : string :=
  "eyJhbGciOiJIUzI1NiJ9.eyJleHAiOjIwMDAwMDAwMDAsInN1YiI6InU_PiJ9.c2ln".

(** A text that is not JSON, in base64: [not json]. *)
Definition token_not_json : string := "eyJhbGciOiJIUzI1NiJ9.bm90IGpzb24.c2ln".

(** A reading of [Date.now()]: 1 November 2026, in milliseconds. *)
Definition now_2026 : Z := 1793491200000.

Definition session_with (tok : value) : AuthContext.AuthState :=
  {| AuthContext.user := user_record;
     AuthContext.role := VStr "REPORTER";
     AuthContext.token := tok;
     AuthContext.loading := false |}.

(** The world before anything is stored, once the mount effect has run. *)
Definition logged_out : AuthContext.World :=
  {| AuthContext.auth :=
       {| AuthContext.user := VNull; AuthContext.role := VNull;
          AuthContext.token := VNull; AuthContext.loading := false |};
     AuthContext.browser :=
       {| localStorage := ∅; location_assigned := [] |} |}.

(** The world after a reporter has logged in. *)
Definition logged_in : AuthContext.World :=
  AuthContext.login platform (VStr token_2033) user_record (VStr "REPORTER")
    logged_out.

(** The answer of the backend to a login with wrong credentials, as
    the HTTP client reports it. *)
Definition unauthorized : Axios.AxiosError :=
  {| Axios.response :=
       Some {| Axios.status := 401;
               Axios.data :=
                 VObj [("error", VStr "Invalid email or password")] |};
     Axios.message := "Request failed with status code 401" |}.

(** The login form, filled in and not yet submitted. *)
Definition login_form : Login.Page :=
  {| Login.email := "ana@clinic.org";
     Login.password := "not-my-password";
     Login.errors := VObj [];
     Login.submitting := false;
     Login.navigated := [] |}.

(** Facilities as the dashboard receives them. *)
Definition facility (nm ctry cty : string) (icu : Z) (crit : bool)
  (updated : value) : Dashboard.Facility :=
  {| Dashboard.facility_name := VStr nm;
     Dashboard.country := VStr ctry;
     Dashboard.city := VStr cty;
     Dashboard.icu_beds_available :=
       if is_null updated then VNull else VNum icu;
     Dashboard.ventilators_available :=
       if is_null updated then VNull else VNum 4;
     Dashboard.staff_on_duty :=
       if is_null updated then VNull else VNum 12;
     Dashboard.critical := VBool crit;
     Dashboard.last_update := updated |}.

Definition reported : value := VStr "2026-10-31T08:15:00".

(** Two critical facilities, one without any report, three active. *)
Definition six_facilities : list Dashboard.Facility :=
  [ facility "Kenyatta National" "Kenya" "Nairobi" 0 true reported;
    facility "Coast General" "Kenya" "Mombasa" 0 true reported;
    facility "Moi Teaching" "Kenya" "Eldoret" 0 false VNull;
    facility "Aga Khan" "Kenya" "Nairobi" 5 false reported;
    facility "Mulago" "Uganda" "Kampala" 3 false reported;
    facility "Muhimbili" "Tanzania" "Dar es Salaam" 8 false reported ].

End Sample.

(** ** Request interceptor: [src/api/axios.js] *)

Module AxiosRequest.

(** The first handler of [api.interceptors.request.use], on the
    headers of the request [config]: a truthy stored token is attached
    as bearer token. *)
Definition on_request (headers : gmap string string) (br : Browser)
  : gmap string string :=
  match getItem "access_token" br with
  | Some token =>
      if negb (String.eqb token "")
      then <["Authorization" := "Bearer " ++ token]> headers
      else headers
  | None => headers
  end.

End AxiosRequest.

(** ** Routes: [App.jsx] *)

Module App.
Import AuthContext Guard.

(** The routes wrapped in [ProtectedRoute], with their [allowedRoles]. *)
Definition protected_routes : list (string * list string) :=
  [ ("/admin/facilities", ["ADMIN"]);
    ("/admin/users", ["ADMIN"]);
    ("/report", ["REPORTER"; "ADMIN"]);
    ("/dashboard", ["MONITOR"; "ADMIN"]) ].

(** The [switch] of [HomeRedirect]. *)
Definition home_target (upper_role : value) : string :=
  if strict_eq_str upper_role "ADMIN" then "/admin/facilities"
  else if strict_eq_str upper_role "REPORTER" then "/report"
  else if strict_eq_str upper_role "MONITOR" then "/dashboard"
  else "/login".

(** [HomeRedirect], the element of the route [/]. *)
Definition HomeRedirect (P : Platform) (st : AuthState) : Rendered :=
  if negb (isAuthenticated st) then Navigate "/login"
  else
    match optional_toUpperCase P (role st) with
    | None => Crashed
    | Some r => Navigate (home_target r)
    end.

End App.

(** ** Navigation bar: [src/components/Navbar.jsx] *)

Module Navbar.
Import AuthContext Guard.

(** [handleLogout]: [logout()], then [navigate('/login')]; the second
    component lists the paths handed to the router. *)
Definition handleLogout (w : World) (navigated : list string)
  : World * list string :=
  (logout w, (navigated ++ ["/login"])%list).

(** The targets of the links of the desktop bar, in their order;
    [None] when [role?.toUpperCase()] throws. *)
Definition desktop_links (P : Platform) (st : AuthState)
  : option (list string) :=
  match optional_toUpperCase P (role st) with
  | None => None
  | Some r =>
      Some ((if strict_eq_str r "ADMIN"
             then ["/admin/facilities"; "/admin/users"; "/dashboard"]
             else [])
            ++ (if strict_eq_str r "REPORTER" then ["/report"] else [])
            ++ (if strict_eq_str r "MONITOR" then ["/dashboard"] else []))%list
  end.

(** The targets of the links of the mobile bar, which compares [role]
    as it is. *)
Definition mobile_links (st : AuthState) : list string :=
  ((if strict_eq_str (role st) "ADMIN"
    then ["/admin/facilities"; "/admin/users"; "/dashboard"]
    else [])
   ++ (if strict_eq_str (role st) "REPORTER" then ["/report"] else [])
   ++ (if strict_eq_str (role st) "MONITOR" then ["/dashboard"] else []))%list.

End Navbar.

(** ** More sample data *)

Module Fixtures.
Import AuthContext.

(** The first render of a page load over a given storage. *)
Definition page_load (ls : gmap string string) : World :=
  {| auth := initial;
     browser := {| localStorage := ls; location_assigned := [] |} |}.

(** A storage whose user entry is not JSON, beside a token that expires
    in 2033 and a role. *)
Definition corrupted_user : gmap string string :=
  <["access_token" := Sample.token_2033]>
    (<["user" := "not json"]> (<["role" := "REPORTER"]> ∅)).

(** A storage with the three session entries and a display preference
    of some other part of the page. *)
Definition with_preference : gmap string string :=
  <["theme" := "dark"]> (localStorage (browser Sample.logged_in)).

(** Sessions after the mount effect, by role. *)
Definition session_of (r : value) : AuthState :=
  {| user := Sample.user_record; role := r;
     token := VStr Sample.token_2033; loading := false |}.

End Fixtures.

(** ** Characters of the e-mail pattern *)

Module LoginPattern.

(** What [\S] matches. *)
Definition visible (c : ascii) : Prop := is_space c = false.

End LoginPattern.

(** ** Answers of the backend to a login *)

Module Answers.

(** A reporter of facility 7. *)
Definition reporter_ok : Axios.Response :=
  {| Axios.status := 200;
     Axios.data :=
       VObj [("access_token", VStr Sample.token_2033);
             ("role", VStr "reporter");
             ("facility_id", VNum 7)] |}.

(** A role that the front end does not know. *)
Definition auditor_ok : Axios.Response :=
  {| Axios.status := 200;
     Axios.data :=
       VObj [("access_token", VStr Sample.token_2033);
             ("role", VStr "auditor");
             ("facility_id", VNull)] |}.


End Answers.

(** ** Dashboard: filter options, table rows, elapsed time *)

Module DashboardView.
Import Dashboard.

(** The equality of [Set]: on the values of a parsed answer two arrays
    or two objects are never the same one. *)
Definition same_value_zero (a b : value) : bool :=
  match a, b with
  | VUndefined, VUndefined => true
  | VNull, VNull => true
  | VBool x, VBool y => Bool.eqb x y
  | VNum x, VNum y => (x =? y)%Z
  | VStr x, VStr y => String.eqb x y
  | _, _ => false
  end.

(** [[...new Set(l)]]: the elements in the order of their first
    occurrence. *)
Fixpoint distinct (l : list value) : list value :=
  match l with
  | [] => []
  | x :: l' =>
      x :: List.filter (fun y => negb (same_value_zero x y)) (distinct l')
  end.

(** [getStatusColor] *)
Definition getStatusColor (f : Facility) : string :=
  if truthy (critical f) then "bg-red-50 border-l-4 border-red-500"
  else if is_null (last_update f)
       then "bg-yellow-50 border-l-4 border-yellow-500"
       else "hover:bg-gray-50".

Section WithPlatform.
Context (P : Platform).

(** [l.sort()] without comparator: the elements are compared as
    strings, code unit by code unit, and equal ones keep their order. *)
Fixpoint insert_sorted (x : value) (l : list value) : list value :=
  match l with
  | [] => [x]
  | y :: l' =>
      if String.leb (ToString P x) (ToString P y) then x :: l
      else y :: insert_sorted x l'
  end.

Fixpoint sort (l : list value) : list value :=
  match l with
  | [] => []
  | x :: l' => insert_sorted x (sort l')
  end.

(** [uniqueCountries] *)
Definition uniqueCountries (facilities : list Facility) : list value :=
  sort (distinct (List.filter truthy (map country facilities))).

(** [uniqueCities] *)
Definition uniqueCities (facilities : list Facility)
  (selectedCountry : string) : list value :=
  let filteredFacilities :=
    if nonempty selectedCountry
    then List.filter (fun f => strict_eq_str (country f) selectedCountry)
           facilities
    else facilities in
  sort (distinct (List.filter truthy (map city filteredFacilities))).

(** [getTimeSinceUpdate(dateString)], with [now] the time of [new Date()]
    and [time_of d] the time of [new Date(d)], both in milliseconds;
    [None] is an invalid date, whose time is [NaN]. *)
Definition getTimeSinceUpdate (time_of : value -> number) (now : Z)
  (dateString : value) : string :=
  if negb (truthy dateString) then "No data"
  else
    match time_of dateString with
    | None => "NaN days ago"
    | Some date =>
        let minutes := ((now - date) / 60000)%Z in
        if (minutes =? 0)%Z then "Just now"
        else if (minutes =? 1)%Z then "1 minute ago"
        else if (minutes <? 60)%Z
             then NumberToString P minutes ++ " minutes ago"
             else
               let hours := (minutes / 60)%Z in
               if (hours =? 1)%Z then "1 hour ago"
               else if (hours <? 24)%Z
                    then NumberToString P hours ++ " hours ago"
                    else
                      let days := (hours / 24)%Z in
                      if (days =? 1)%Z then "1 day ago"
                      else NumberToString P days ++ " days ago"
    end.

End WithPlatform.

End DashboardView.

(** ** Order of a sorted list of options *)

Module Order.


End Order.

(** ** Rows of the facility table, by colour *)

Module Rows.

(** How many rows [getStatusColor] gives the class [cls]. *)
Definition rows_with (cls : string) (fs : list Dashboard.Facility) : nat :=
  length
    (List.filter
       (fun f => String.eqb (DashboardView.getStatusColor f) cls) fs).

Definition red : string := "bg-red-50 border-l-4 border-red-500".
Definition yellow : string := "bg-yellow-50 border-l-4 border-yellow-500".
Definition plain : string := "hover:bg-gray-50".

End Rows.

(** ** A time stamp and its reading *)

Module Clock.

Definition stamp : value := VStr "2026-10-31T08:15:00Z".

(** [new Date(v).getTime()] on the stamp above; any other value is
    taken as an invalid date here. *)
Definition time_of (v : value) : number :=
  if strict_eq_str v "2026-10-31T08:15:00Z" then Some 1793434500000%Z
  else None.

End Clock.

(** ** Text: digits, character classes, [parseInt] *)

Module JsText.

Definition code (c : ascii) : nat := nat_of_ascii c.

(** [\d] and [[0-9]] *)
Definition is_digit (c : ascii) : bool :=
  ((48 <=? code c) && (code c <=? 57))%nat.

(** [[A-Z]] and [[a-z]] *)
Definition is_upper (c : ascii) : bool :=
  ((65 <=? code c) && (code c <=? 90))%nat.
Definition is_lower (c : ascii) : bool :=
  ((97 <=? code c) && (code c <=? 122))%nat.

(** [[!@#$%^&*]] *)
Definition is_special (c : ascii) : bool :=
  existsb (Ascii.eqb c) (list_ascii_of_string "!@#$%^&*").

(** [/C/.test(s)] for a character class [C] *)
Definition has (cls : ascii -> bool) (s : string) : bool :=
  existsb cls (list_ascii_of_string s).

(** [/^\d+$/.test(s)] *)
Definition all_digits (s : string) : bool :=
  negb (String.eqb s "") && forallb is_digit (list_ascii_of_string s).

(** The value of a digit in a radix, if it is one. *)
Definition digit_value (radix : Z) (c : ascii) : option Z :=
  let n := Z.of_nat (code c) in
  let v :=
    if is_digit c then Some (n - 48)%Z
    else if is_lower c then Some (n - 87)%Z
    else if is_upper c then Some (n - 55)%Z
    else None in
  match v with
  | Some d => if (d <? radix)%Z then Some d else None
  | None => None
  end.

(** The values of the longest prefix of digits. *)
Fixpoint digits_prefix (radix : Z) (l : list ascii) : list Z :=
  match l with
  | [] => []
  | c :: l' =>
      match digit_value radix c with
      | Some d => d :: digits_prefix radix l'
      | None => []
      end
  end.

Definition number_of (radix : Z) (ds : list Z) : Z :=
  fold_left (fun acc d => (acc * radix + d)%Z) ds 0%Z.

Fixpoint drop_space (l : list ascii) : list ascii :=
  match l with
  | c :: l' => if is_space c then drop_space l' else l
  | [] => []
  end.

(** An optional sign. *)
Definition strip_sign (l : list ascii) : Z * list ascii :=
  match l with
  | c :: l' =>
      if Ascii.eqb c "-" then ((-1)%Z, l')
      else if Ascii.eqb c "+" then (1%Z, l')
      else (1%Z, l)
  | [] => (1%Z, l)
  end.

(** The prefix [0x] or [0X] selects radix sixteen. *)
Definition strip_hex (l : list ascii) : Z * list ascii :=
  match l with
  | c :: x :: l' =>
      if Ascii.eqb c "0" && (Ascii.eqb x "x" || Ascii.eqb x "X")
      then (16%Z, l') else (10%Z, l)
  | _ => (10%Z, l)
  end.

(** What [parseInt] returns: [NaN], an infinity, or a double that is
    an integer (the sign of a zero is not kept). *)
Inductive double : Type :=
| NaN
| Infinity (negative : bool)
| Integer (n : Z).

(** Every integer up to 2^53 is a double. *)
Definition exact_limit : Z := 9007199254740992.

(** Beyond that limit the result is the double that the engine makes
    of the digits, which for long runs it may choose among several:
    [rounded radix ds] is that double for the digits [ds], [None] for
    [Infinity]. *)
Definition Rounding : Type := Z -> list Z -> option N.

(** [parseInt(s)] without radix: leading white space, a sign, the
    prefix for radix sixteen, then the longest prefix of digits; [NaN]
    when there is no digit. *)
Definition parseInt (rounded : Rounding) (s : string) : double :=
  let '(sign, l) := strip_sign (drop_space (list_ascii_of_string s)) in
  let '(radix, l) := strip_hex l in
  match digits_prefix radix l with
  | [] => NaN
  | ds =>
      let n := number_of radix ds in
      if (n <=? exact_limit)%Z then Integer (sign * n)
      else
        match rounded radix ds with
        | Some m => Integer (sign * Z.of_N m)
        | None => Infinity (sign <? 0)%Z
        end
  end.

(** [isNaN(d)] and [d < 0] *)
Definition isNaN (d : double) : bool :=
  match d with
  | NaN => true
  | _ => false
  end.

Definition below_zero (d : double) : bool :=
  match d with
  | NaN => false
  | Infinity negative => negative
  | Integer n => (n <? 0)%Z
  end.


End JsText.

(** ** Report form: [pages/reporter/ReportForm.jsx] *)

Module ReportForm.
Import JsText.

Record FormData : Type := {
  facility_id : value;
  icu_beds_available : value;
  ventilators_available : value;
  staff_on_duty : value
}.

(** The initial [formData]: [user?.facility_id || ''] and three empty
    fields. *)
Definition initial_formData (user : value) : FormData :=
  {| facility_id :=
       if truthy (opt_get user "facility_id")
       then opt_get user "facility_id" else VStr "";
     icu_beds_available := VStr "";
     ventilators_available := VStr "";
     staff_on_duty := VStr "" |}.

(** [{...prev, [name]: value}]; a key other than the four fields is
    never read and is not kept here. *)
Definition set_field (name : string) (v : value) (fd : FormData)
  : FormData :=
  if String.eqb name "facility_id" then
    {| facility_id := v; icu_beds_available := icu_beds_available fd;
       ventilators_available := ventilators_available fd;
       staff_on_duty := staff_on_duty fd |}
  else if String.eqb name "icu_beds_available" then
    {| facility_id := facility_id fd; icu_beds_available := v;
       ventilators_available := ventilators_available fd;
       staff_on_duty := staff_on_duty fd |}
  else if String.eqb name "ventilators_available" then
    {| facility_id := facility_id fd;
       icu_beds_available := icu_beds_available fd;
       ventilators_available := v; staff_on_duty := staff_on_duty fd |}
  else if String.eqb name "staff_on_duty" then
    {| facility_id := facility_id fd;
       icu_beds_available := icu_beds_available fd;
       ventilators_available := ventilators_available fd;
       staff_on_duty := v |}
  else fd.

Section WithPlatform.
Context (P : Platform) (rounded : Rounding).

(** [parseInt(v)] for a field of the form: the argument is converted to
    a string first. *)
Definition parseInt_value (v : value) : double :=
  parseInt rounded (ToString P v).

(** One of the three blocks of [validateForm]. *)
Definition check_field (key required : string) (v : value)
  (errors : gmap string value) : gmap string value :=
  if strict_eq_str v "" then <[key := VStr required]> errors
  else if isNaN (parseInt_value v) || below_zero (parseInt_value v)
  then <[key := VStr "Must be a non-negative integer"]> errors
  else errors.

(** [validateForm] *)
Definition validateForm (fd : FormData) : gmap string value :=
  check_field "staff_on_duty" "Staff on duty is required"
    (staff_on_duty fd)
    (check_field "ventilators_available"
       "Ventilators available is required" (ventilators_available fd)
       (check_field "icu_beds_available" "ICU beds available is required"
          (icu_beds_available fd) ∅)).

(** The [payload] of [handleSubmit]. *)
Record Payload : Type := {
  p_facility_id : double;
  p_icu_beds_available : double;
  p_ventilators_available : double;
  p_staff_on_duty : double
}.

Definition payload (fd : FormData) : Payload :=
  {| p_facility_id := parseInt_value (facility_id fd);
     p_icu_beds_available := parseInt_value (icu_beds_available fd);
     p_ventilators_available := parseInt_value (ventilators_available fd);
     p_staff_on_duty := parseInt_value (staff_on_duty fd) |}.

End WithPlatform.

(** [handleInputChange], on [formData] and [formErrors]; [name] and
    [val] are the name and the value of the input that changed. *)
Definition handleInputChange (name val : string)
  (st : FormData * gmap string value) : FormData * gmap string value :=
  if negb (String.eqb name "facility_id") && negb (String.eqb val "")
     && negb (all_digits val)
  then st
  else
    (set_field name (VStr val) (fst st),
     if truthy (default VUndefined (snd st !! name))
     then <[name := VNull]> (snd st) else snd st).

(** The state update of [fetchLatestReport] when the response has a
    report: [report.x ?? ''] for the three numeric fields. *)
Definition or_empty (v : value) : value :=
  if nullish v then VStr "" else v.

Definition on_report (report : value) (fd : FormData) : FormData :=
  {| facility_id := facility_id fd;
     icu_beds_available := or_empty (get report "icu_beds_available");
     ventilators_available :=
       or_empty (get report "ventilators_available");
     staff_on_duty := or_empty (get report "staff_on_duty") |}.





End ReportForm.

(** ** User administration: [pages/admin/Users.jsx] *)

(** A facility as the backend lists it; its [id] is a number. *)
Module AdminFacility.

Record Facility : Type := {
  id : Z;
  name : value;
  country : value;
  city : value
}.

End AdminFacility.

Module Users.
Import JsText.

(** [formData]: every member is the value of an input or a select. *)
Record FormData : Type := {
  email : string;
  password : string;
  role : string;
  country : string;
  city : string;
  facility_id : string
}.

(** The initial [formData], also set by [handleCancel] and after a user
    was created. *)
Definition initial_formData : FormData :=
  {| email := ""; password := ""; role := "reporter"; country := "";
     city := ""; facility_id := "" |}.

(** [filteredFacilities] *)
Definition filteredFacilities (facilities : list AdminFacility.Facility)
  (fd : FormData) : list AdminFacility.Facility :=
  let result :=
    if negb (String.eqb (country fd) "")
    then List.filter
           (fun f => strict_eq_str (AdminFacility.country f) (country fd))
           facilities
    else facilities in
  if negb (String.eqb (city fd) "")
  then List.filter
         (fun f => strict_eq_str (AdminFacility.city f) (city fd)) result
  else result.

(** The first rule that the password breaks, if any. *)
Definition password_error (pw : string) : option string :=
  if String.eqb pw "" then Some "Password is required"
  else if (String.length pw <? 8)%nat
  then Some "Password must be at least 8 characters"
  else if negb (has is_upper pw)
  then Some "Password must contain at least one uppercase letter"
  else if negb (has is_lower pw)
  then Some "Password must contain at least one lowercase letter"
  else if negb (has is_digit pw)
  then Some "Password must contain at least one number"
  else if negb (has is_special pw)
  then Some
         "Password must contain at least one special character (!@#$%^&*)"
  else None.

(** [validateForm] *)
Definition validateForm (fd : FormData) : gmap string value :=
  let errors : gmap string value := ∅ in
  let errors :=
    if blank (email fd) then <["email" := VStr "Email is required"]> errors
    else if negb (Login.email_pattern_test (email fd))
         then <["email" := VStr "Email is invalid"]> errors
         else errors in
  let errors :=
    match password_error (password fd) with
    | Some message => <["password" := VStr message]> errors
    | None => errors
    end in
  let errors :=
    if String.eqb (role fd) ""
    then <["role" := VStr "Role is required"]> errors else errors in
  if String.eqb (role fd) "reporter" && String.eqb (facility_id fd) ""
  then <["facility_id" := VStr "Facility is required for reporters"]>
         errors
  else errors.

(** [{...prev, [name]: value}]; a key other than the six members is
    never read and is not kept here. *)
Definition set_field (name val : string) (fd : FormData) : FormData :=
  if String.eqb name "email" then
    {| email := val; password := password fd; role := role fd;
       country := country fd; city := city fd;
       facility_id := facility_id fd |}
  else if String.eqb name "password" then
    {| email := email fd; password := val; role := role fd;
       country := country fd; city := city fd;
       facility_id := facility_id fd |}
  else if String.eqb name "role" then
    {| email := email fd; password := password fd; role := val;
       country := country fd; city := city fd;
       facility_id := facility_id fd |}
  else if String.eqb name "country" then
    {| email := email fd; password := password fd; role := role fd;
       country := val; city := city fd; facility_id := facility_id fd |}
  else if String.eqb name "city" then
    {| email := email fd; password := password fd; role := role fd;
       country := country fd; city := val;
       facility_id := facility_id fd |}
  else if String.eqb name "facility_id" then
    {| email := email fd; password := password fd; role := role fd;
       country := country fd; city := city fd; facility_id := val |}
  else fd.

(** [handleInputChange], on [formData] and [formErrors]. *)
Definition handleInputChange (name val : string)
  (st : FormData * gmap string value) : FormData * gmap string value :=
  let updated := set_field name val (fst st) in
  let updated :=
    if String.eqb name "role" && negb (String.eqb val "reporter")
    then {| email := email updated; password := password updated;
            role := role updated; country := ""; city := "";
            facility_id := "" |}
    else updated in
  let updated :=
    if String.eqb name "country"
    then {| email := email updated; password := password updated;
            role := role updated; country := country updated;
            city := ""; facility_id := "" |}
    else updated in
  let updated :=
    if String.eqb name "city"
    then {| email := email updated; password := password updated;
            role := role updated; country := country updated;
            city := city updated; facility_id := "" |}
    else updated in
  (updated,
   if truthy (default VUndefined (snd st !! name))
   then <[name := VNull]> (snd st) else snd st).

(** The [payload] of [handleSubmit]; [p_facility_id] is [None] when the
    object has no such key. *)
Record Payload : Type := {
  p_email : string;
  p_password : string;
  p_role : string;
  p_facility_id : option double
}.

Definition payload (rounded : Rounding) (fd : FormData) : Payload :=
  {| p_email := email fd; p_password := password fd; p_role := role fd;
     p_facility_id :=
       if String.eqb (role fd) "reporter"
          && negb (String.eqb (facility_id fd) "")
       then Some (parseInt rounded (facility_id fd)) else None |}.

Section WithPlatform.
Context (P : Platform).

(** The values of the options of the facility select, the empty first
    option apart. *)
Definition facility_options (facilities : list AdminFacility.Facility)
  (fd : FormData) : list string :=
  map (fun f => NumberToString P (AdminFacility.id f))
    (filteredFacilities facilities fd).

(** A change event that the form can produce: the facility select
    offers the empty option and those of [filteredFacilities]. *)
Definition offered (facilities : list AdminFacility.Facility)
  (fd : FormData) (name val : string) : Prop :=
  name = "facility_id" ->
  val = "" \/ In val (facility_options facilities fd).

(** A run of change events, each one offered by the form as the events
    before it left it. *)
Fixpoint admissible (facilities : list AdminFacility.Facility)
  (events : list (string * string))
  (st : FormData * gmap string value) : Prop :=
  match events with
  | [] => True
  | e :: events' =>
      offered facilities (fst st) (fst e) (snd e)
      /\ admissible facilities events'
           (handleInputChange (fst e) (snd e) st)
  end.

(** The chosen facility is none, or one that the select shows. *)
Definition chosen_is_shown (facilities : list AdminFacility.Facility)
  (fd : FormData) : Prop :=
  facility_id fd = ""
  \/ In (facility_id fd) (facility_options facilities fd).

End WithPlatform.

Definition changes (events : list (string * string))
  (st : FormData * gmap string value) : FormData * gmap string value :=
  fold_left (fun st e => handleInputChange (fst e) (snd e) st) events st.

(** The login page on which the credentials of the form are typed. *)
Definition login_page (fd : FormData) : Login.Page :=
  {| Login.email := email fd; Login.password := password fd;
     Login.errors := VObj []; Login.submitting := false;
     Login.navigated := [] |}.

End Users.

(** An engine that rounds to the nearest double, ties to the even
    one. *)
Module Doubles.
Import JsText.

Definition nearest : Rounding := fun radix ds =>
  let n := number_of radix ds in
  let e := (Z.log2 n - 52)%Z in
  let q := Z.shiftr n e in
  let r := Z.land n (Z.ones e) in
  let half := Z.shiftl 1 (e - 1) in
  let q :=
    if (half <? r)%Z || ((r =? half)%Z && Z.odd q) then (q + 1)%Z else q in
  let m := Z.shiftl q e in
  if (m <? Z.shiftl 1 1024)%Z then Some (Z.to_N m) else None.

End Doubles.

(** Three facilities of two countries. *)
Module Directory.

Definition facilities : list AdminFacility.Facility :=
  [ {| AdminFacility.id := 3; AdminFacility.name := VStr "Central";
       AdminFacility.country := VStr "Kenya";
       AdminFacility.city := VStr "Nairobi" |};
    {| AdminFacility.id := 12; AdminFacility.name := VStr "Coast";
       AdminFacility.country := VStr "Kenya";
       AdminFacility.city := VStr "Mombasa" |};
    {| AdminFacility.id := 20; AdminFacility.name := VStr "North";
       AdminFacility.country := VStr "Ghana";
       AdminFacility.city := VStr "Tamale" |} ].

End Directory.

(** * Properties *)

Import AuthContext Axios Guard.

(** Goals about what [getItem] finds after a sequence of [setItem] and
    [removeItem] calls. *)
Ltac storage := unfold getItem; cbn; simplify_map_eq; eauto.

(** ** Session store *)

Section SessionStore.
Context (P : Platform).

Lemma decodeToken_not_string (tok : value) :
  (forall t, tok <> VStr t) -> decodeToken P tok = VNull.
Proof.
  intros H. destruct tok; try reflexivity. now destruct (H s).
Qed.

Lemma decodeToken_atob_throws (t : string) :
  atob P (payload_segment t) = None -> decodeToken P (VStr t) = VNull.
Proof. intros H. cbn. now rewrite H. Qed.

Lemma decodeToken_parse_throws (t bin : string) :
  atob P (payload_segment t) = Some bin -> JSON_parse P bin = None ->
  decodeToken P (VStr t) = VNull.
Proof. intros Ha Hp. cbn. now rewrite Ha, Hp. Qed.

(** The success path of decoding: [decodeToken] returns what
    [JSON.parse] makes of what [atob] makes of the second segment. *)
Lemma decodeToken_decodes (t bin : string) (d : value) :
  atob P (payload_segment t) = Some bin -> JSON_parse P bin = Some d ->
  decodeToken P (VStr t) = d.
Proof. intros Ha Hp. cbn. now rewrite Ha, Hp. Qed.

(** A token that decodes to [d]: the answer is read off [d.exp], which
    [*] converts to a number; a comparison with [NaN] is false. *)
Lemma isTokenExpired_decoded (st : AuthState) (now : Z)
  (t bin : string) (d : value) :
  token st = VStr t -> t <> "" ->
  atob P (payload_segment t) = Some bin -> JSON_parse P bin = Some d ->
  isTokenExpired P st now
  = if truthy (get d "exp")
    then lt (mul (ToNumber P (get d "exp")) 1000) now
    else true.
Proof.
  intros Ht Hne Ha Hp. unfold isTokenExpired.
  rewrite Ht, (decodeToken_decodes t bin d Ha Hp).
  cbn [truthy]. apply String.eqb_neq in Hne. rewrite Hne. cbn [negb].
  destruct (truthy (get d "exp")) eqn:He; cbn [negb].
  - destruct d; cbn in He; try discriminate He; reflexivity.
  - now destruct (truthy d).
Qed.

(** An expiry claim that is not a number, such as a date in words, is
    compared as [NaN]: the token never counts as expired. *)
Lemma isTokenExpired_exp_not_a_number (st : AuthState) (now : Z)
  (t bin : string) (d : value) :
  token st = VStr t -> t <> "" ->
  atob P (payload_segment t) = Some bin -> JSON_parse P bin = Some d ->
  truthy (get d "exp") = true -> ToNumber P (get d "exp") = None ->
  isTokenExpired P st now = false.
Proof.
  intros Ht Hne Ha Hp He Hn.
  rewrite (isTokenExpired_decoded st now t bin d Ht Hne Ha Hp), He, Hn.
  reflexivity.
Qed.

(** C1.  [isTokenExpired] answers true when the token is absent, when
    it is not a string, when its second segment is not base64 ([atob]
    throws) or does not decode to JSON ([JSON.parse] throws).  When the
    second segment of a token decodes, through [atob] and [JSON.parse],
    to a payload [d], it answers true if [d] has no [exp] member (or a
    falsy one, such as 0), true if [exp] (in seconds) lies before the
    clock reading [now] (in milliseconds), and false if [exp] lies
    after [now]. *)
Theorem isTokenExpired_cases (st : AuthState) (now : Z) :
  (truthy (token st) = false -> isTokenExpired P st now = true)
  /\ ((forall t, token st <> VStr t) -> isTokenExpired P st now = true)
  /\ (forall t, token st = VStr t -> atob P (payload_segment t) = None ->
      isTokenExpired P st now = true)
  /\ (forall t bin, token st = VStr t ->
      atob P (payload_segment t) = Some bin -> JSON_parse P bin = None ->
      isTokenExpired P st now = true)
  /\ (forall t bin d, token st = VStr t ->
      atob P (payload_segment t) = Some bin ->
      JSON_parse P bin = Some d ->
      (truthy (get d "exp") = false -> isTokenExpired P st now = true)
      /\ (forall e, get d "exp" = VNum e -> e * 1000 < now ->
          isTokenExpired P st now = true)
      /\ (forall e, t <> "" -> get d "exp" = VNum e -> e <> 0 ->
          now < e * 1000 -> isTokenExpired P st now = false)).
Proof.
  split; [|split; [|split; [|split]]].
  - unfold isTokenExpired. intros ->. reflexivity.
  - unfold isTokenExpired. intros Hns.
    rewrite (decodeToken_not_string _ Hns).
    now destruct (truthy (token st)).
  - unfold isTokenExpired. intros t Ht Ha. rewrite Ht.
    rewrite (decodeToken_atob_throws t Ha). now destruct (truthy (VStr t)).
  - unfold isTokenExpired. intros t bin Ht Ha Hp. rewrite Ht.
    rewrite (decodeToken_parse_throws t bin Ha Hp).
    now destruct (truthy (VStr t)).
  - intros t bin d Ht Ha Hp.
    destruct (String.eqb_spec t "") as [E|Hne].
    + assert (Hempty : isTokenExpired P st now = true).
      { unfold isTokenExpired. rewrite Ht, E. reflexivity. }
      repeat split; try (intros; exact Hempty).
      intros e Hc. contradiction.
    + rewrite (isTokenExpired_decoded st now t bin d Ht Hne Ha Hp).
      split; [|split].
      * intros ->. reflexivity.
      * intros e He Hlt. rewrite He. cbn.
        destruct (Z.eqb_spec e 0); cbn; [reflexivity|].
        apply Z.ltb_lt, Hlt.
      * intros e _ He He0 Hlt. rewrite He. cbn.
        destruct (Z.eqb_spec e 0); [contradiction|]. cbn.
        apply Z.ltb_ge. lia.
Qed.

End SessionStore.

(** One session for each case: no token, a number as token, a token
    without dots, a payload that is not JSON, a payload without [exp],
    an expiry in 2001 and an expiry in 2033, all read in 2026; the
    payloads are decoded from the tokens by [atob] and [JSON.parse]. *)
Lemma isTokenExpired_cases_witness :
  isTokenExpired Sample.platform (Sample.session_with VNull)
    Sample.now_2026 = true
  /\ isTokenExpired Sample.platform (Sample.session_with (VNum 5))
       Sample.now_2026 = true
  /\ isTokenExpired Sample.platform (Sample.session_with (VStr "nodots"))
       Sample.now_2026 = true
  /\ isTokenExpired Sample.platform
       (Sample.session_with (VStr Sample.token_not_json))
       Sample.now_2026 = true
  /\ isTokenExpired Sample.platform
       (Sample.session_with (VStr Sample.token_no_exp))
       Sample.now_2026 = true
  /\ isTokenExpired Sample.platform
       (Sample.session_with (VStr Sample.token_2001))
       Sample.now_2026 = true
  /\ isTokenExpired Sample.platform
       (Sample.session_with (VStr Sample.token_2033))
       Sample.now_2026 = false.
Proof.
  split.
  { destruct (isTokenExpired_cases Sample.platform
                (Sample.session_with VNull) Sample.now_2026) as (H & _).
    apply H. reflexivity. }
  split.
  { destruct (isTokenExpired_cases Sample.platform
                (Sample.session_with (VNum 5)) Sample.now_2026)
      as (_ & H & _).
    apply H. intros t. discriminate. }
  split.
  { destruct (isTokenExpired_cases Sample.platform
                (Sample.session_with (VStr "nodots")) Sample.now_2026)
      as (_ & _ & H & _).
    apply (H "nodots"); reflexivity. }
  split.
  { destruct (isTokenExpired_cases Sample.platform
                (Sample.session_with (VStr Sample.token_not_json))
                Sample.now_2026) as (_ & _ & _ & H & _).
    apply (H Sample.token_not_json "not json"); reflexivity. }
  split.
  { destruct (isTokenExpired_cases Sample.platform
                (Sample.session_with (VStr Sample.token_no_exp))
                Sample.now_2026) as (_ & _ & _ & _ & H).
    destruct (H Sample.token_no_exp Sample.sub_u1
                (VObj [("sub", VStr "u1")]) eq_refl eq_refl eq_refl)
      as (Hno & _).
    apply Hno. reflexivity. }
  split.
  { destruct (isTokenExpired_cases Sample.platform
                (Sample.session_with (VStr Sample.token_2001))
                Sample.now_2026) as (_ & _ & _ & _ & H).
    destruct (H Sample.token_2001 Sample.exp_1000000000
                (VObj [("exp", VNum 1000000000)]) eq_refl eq_refl eq_refl)
      as (_ & Hpast & _).
    apply (Hpast 1000000000); [reflexivity|].
    unfold Sample.now_2026. lia. }
  destruct (isTokenExpired_cases Sample.platform
              (Sample.session_with (VStr Sample.token_2033))
              Sample.now_2026) as (_ & _ & _ & _ & H).
  destruct (H Sample.token_2033 Sample.exp_2000000000
              (VObj [("exp", VNum 2000000000)]) eq_refl eq_refl eq_refl)
    as (_ & _ & Hfuture).
  apply (Hfuture 2000000000); [discriminate|reflexivity|lia|].
  unfold Sample.now_2026. lia.
Defined.

(** [atob] knows the alphabet of base64 only: a payload segment in the
    URL-safe alphabet does not decode, so the token counts as expired
    whatever its expiry claim says. *)
Example url_safe_payload_not_decoded :
  atob Sample.platform (payload_segment Sample.token_url_safe) = None
  /\ isTokenExpired Sample.platform
       (Sample.session_with (VStr Sample.token_url_safe)) Sample.now_2026
     = true.
Proof. split; reflexivity. Qed.

Section SessionOperations.
Context (P : Platform).

Lemma login_auth (t u r : value) (w : World) :
  auth (login P t u r w)
  = {| user := u; role := r; token := t; loading := loading (auth w) |}.
Proof. reflexivity. Qed.

Lemma logout_auth (w : World) :
  auth (logout w)
  = {| user := VNull; role := VNull; token := VNull;
       loading := loading (auth w) |}.
Proof. reflexivity. Qed.

Lemma isAuthenticated_login (t u r : value) (w : World) :
  isAuthenticated (auth (login P t u r w))
  = truthy t && truthy u && truthy r.
Proof. reflexivity. Qed.

(** [login] stores all three fields, whatever was stored before. *)
Lemma login_all_present (t u r : value) (w : World) :
  all_present (browser (login P t u r w)).
Proof.
  unfold all_present. repeat split; storage.
Qed.

(** [logout] removes all three fields. *)
Lemma logout_all_absent (w : World) : all_absent (browser (logout w)).
Proof.
  unfold all_absent. repeat split; storage.
Qed.

(** The mount effect either leaves the storage as it is or does what
    [logout] does to it. *)
Lemma mount_storage (now : Z) (w : World) :
  browser (final (AuthProvider_mount P now w)) = browser w
  \/ browser (final (AuthProvider_mount P now w)) = browser (logout w).
Proof.
  unfold AuthProvider_mount.
  repeat (match goal with
          | |- context [match ?x with _ => _ end] => destruct x
          end; cbn; auto).
Qed.

(** The mount effect keeps the storage free of partial sessions. *)
Lemma mount_no_partial_session (now : Z) (w : World) :
  no_partial_session (browser w) ->
  no_partial_session (browser (final (AuthProvider_mount P now w))).
Proof.
  intros H. destruct (mount_storage now w) as [-> | ->]; [exact H|].
  right. apply logout_all_absent.
Qed.

(** When the three stored strings are non-empty and the stored token
    does not decode to a payload whose [exp] lies after the clock, the
    mount effect logs out: all three fields are removed. *)
Lemma mount_invalidates (now : Z) (w : World) (t u r : string) :
  getItem "access_token" (browser w) = Some t ->
  getItem "user" (browser w) = Some u ->
  getItem "role" (browser w) = Some r ->
  t <> "" -> u <> "" -> r <> "" ->
  truthy (decodeToken P (VStr t))
    && gt (mul (ToNumber P (get (decodeToken P (VStr t)) "exp")) 1000) now
    = false ->
  AuthProvider_mount P now w = Normal (setLoading false (logout w))
  /\ all_absent (browser (final (AuthProvider_mount P now w))).
Proof.
  intros Ht Hu Hr Nt Nu Nr Hexp. unfold AuthProvider_mount.
  rewrite Ht, Hu, Hr.
  apply String.eqb_neq in Nt, Nu, Nr. rewrite Nt, Nu, Nr. cbn [negb andb].
  rewrite Hexp. split; [reflexivity|]. apply (logout_all_absent w).
Qed.

(** C9 (amended).  From any prior state, [login] with a truthy token, a
    truthy user record and a truthy role (a non-empty string, an
    object) gives a state in which [isAuthenticated] is true, and
    [logout] gives a state in which it is false. *)
Theorem login_logout_isAuthenticated (t u r : value) (w : World) :
  truthy t = true -> truthy u = true -> truthy r = true ->
  isAuthenticated (auth (login P t u r w)) = true
  /\ isAuthenticated (auth (logout w)) = false.
Proof.
  intros Ht Hu Hr. rewrite isAuthenticated_login, Ht, Hu, Hr.
  split; reflexivity.
Qed.

(** Once the mount effect has completed, [loading] stays cleared. *)
Lemma mounted_loading (w : World) : mounted P w -> loading (auth w) = false.
Proof.
  induction 1 as [now br w Hm | t u r w _ IH | w _ IH | s w _ IH];
    try exact IH.
  unfold AuthProvider_mount in Hm.
  repeat (match type of Hm with
          | context [match ?x with _ => _ end] => destruct x
          end; cbn in Hm);
    try discriminate; now injection Hm as <-.
Qed.

(** So in every world of a run, before or after the mount effect, a
    session that is authenticated has finished loading. *)
Lemma authenticated_loaded (w : World) :
  auth w = initial \/ mounted P w ->
  isAuthenticated (auth w) = true -> loading (auth w) = false.
Proof.
  intros [E | Hm] Ha; [|exact (mounted_loading w Hm)].
  rewrite E in Ha. discriminate Ha.
Qed.

End SessionOperations.

(** A page load with a stored session whose token expired in 2001: the
    mount effect logs out. *)
Example mount_expired_session :
  let stored :=
    browser (login Sample.platform (VStr Sample.token_2001)
               Sample.user_record (VStr "REPORTER") Sample.logged_out) in
  let w :=
    final (AuthProvider_mount Sample.platform Sample.now_2026
             {| auth := initial; browser := stored |}) in
  all_present stored /\ all_absent (browser w)
  /\ isAuthenticated (auth w) = false /\ loading (auth w) = false.
Proof.
  cbv zeta. split; [apply login_all_present|].
  vm_compute. repeat split.
Qed.

Lemma login_logout_isAuthenticated_witness :
  truthy (VStr Sample.token_2033) = true
  /\ truthy Sample.user_record = true
  /\ truthy (VStr "REPORTER") = true
  /\ isAuthenticated
       (auth (login Sample.platform (VStr Sample.token_2033)
                Sample.user_record (VStr "REPORTER") Sample.logged_out))
     = true
  /\ isAuthenticated (auth (logout Sample.logged_out)) = false.
Proof.
  do 3 (split; [reflexivity|]).
  apply (login_logout_isAuthenticated Sample.platform); reflexivity.
Defined.

(** C9 as stated fails: [login] with the empty string as token is
    followed by an [isAuthenticated] that is false. *)
Lemma login_empty_token_not_authenticated :
  isAuthenticated
    (auth (login Sample.platform (VStr "") Sample.user_record
             (VStr "REPORTER") Sample.logged_out))
  = false.
Proof. reflexivity. Qed.

(** ** HTTP client wrapper *)

Lemma on_response_error_401 (e : AxiosError) (br : Browser) :
  status_is_401 e = true ->
  on_response_error e br
  = assign_location "/login"
      (removeItem "user" (removeItem "access_token" br)).
Proof. intros H. unfold on_response_error. now rewrite H. Qed.

Lemma on_response_error_other (e : AxiosError) (br : Browser) :
  status_is_401 e = false -> on_response_error e br = br.
Proof. intros H. unfold on_response_error. now rewrite H. Qed.

(** The 401 handler never touches the stored role. *)
Lemma on_response_error_role (e : AxiosError) (br : Browser) :
  getItem "role" (on_response_error e br) = getItem "role" br.
Proof.
  unfold on_response_error. destruct (status_is_401 e); [|reflexivity].
  storage.
Qed.

(** A stored role survives a 401, alone: the storage then holds a
    partial session. *)
Lemma on_response_error_partial (e : AxiosError) (br : Browser) :
  status_is_401 e = true -> is_Some (getItem "role" br) ->
  ~ no_partial_session (on_response_error e br).
Proof.
  intros H401 [r Hr] [(Htok & _) | (_ & _ & Hrole)].
  - rewrite (on_response_error_401 e br H401) in Htok.
    unfold getItem in Htok. cbn in Htok. simplify_map_eq.
    now destruct Htok.
  - rewrite on_response_error_role, Hr in Hrole. discriminate.
Qed.

(** C2, at a failing input.  A reporter is logged in, so that the three
    fields are stored; a response with status 401 arrives.  The handler
    removes the token and the user record and leaves the role: the
    storage holds a partial session. *)
Theorem interceptor_401_leaves_partial_session :
  all_present (browser Sample.logged_in)
  /\ getItem "access_token"
       (on_response_error Sample.unauthorized (browser Sample.logged_in))
     = None
  /\ getItem "user"
       (on_response_error Sample.unauthorized (browser Sample.logged_in))
     = None
  /\ getItem "role"
       (on_response_error Sample.unauthorized (browser Sample.logged_in))
     = Some "REPORTER"
  /\ ~ no_partial_session
       (on_response_error Sample.unauthorized (browser Sample.logged_in)).
Proof.
  split; [apply login_all_present|].
  do 3 (split; [storage|]).
  apply on_response_error_partial; [reflexivity|].
  destruct (login_all_present Sample.platform (VStr Sample.token_2033)
              Sample.user_record (VStr "REPORTER") Sample.logged_out)
    as (_ & _ & H).
  exact H.
Qed.

(** C3 (amended).  For every error whose response has status 401, the
    response interceptor removes the stored token and the stored user
    record, assigns the login URL to [window.location.href], and rejects
    with the same error, which reaches the [catch] clause of the
    caller. *)
Theorem response_401_clears_and_redirects (e : AxiosError) (br : Browser) :
  status_is_401 e = true ->
  getItem "access_token" (fst (response_interceptor (Rejected e) br)) = None
  /\ getItem "user" (fst (response_interceptor (Rejected e) br)) = None
  /\ location_assigned (fst (response_interceptor (Rejected e) br))
     = (location_assigned br ++ ["/login"])%list
  /\ snd (response_interceptor (Rejected e) br) = Rejected e.
Proof.
  intros H. cbn [response_interceptor fst snd].
  rewrite (on_response_error_401 e br H).
  repeat split; storage.
Qed.

Lemma response_401_clears_and_redirects_witness :
  status_is_401 Sample.unauthorized = true
  /\ getItem "access_token"
       (fst (response_interceptor (Rejected Sample.unauthorized)
               (browser Sample.logged_in))) = None
  /\ getItem "user"
       (fst (response_interceptor (Rejected Sample.unauthorized)
               (browser Sample.logged_in))) = None
  /\ location_assigned
       (fst (response_interceptor (Rejected Sample.unauthorized)
               (browser Sample.logged_in))) = ["/login"]
  /\ snd (response_interceptor (Rejected Sample.unauthorized)
            (browser Sample.logged_in)) = Rejected Sample.unauthorized.
Proof.
  split; [reflexivity|].
  apply (response_401_clears_and_redirects Sample.unauthorized
           (browser Sample.logged_in)).
  reflexivity.
Defined.

(** C3 as stated fails: after a 401 the role is still stored, and the
    error handling of the call still runs (here the [catch] clause of
    the login page, which sets its banner). *)
Lemma response_401_keeps_role_and_reaches_caller :
  getItem "role"
    (fst (response_interceptor (Rejected Sample.unauthorized)
            (browser Sample.logged_in)))
  = Some "REPORTER"
  /\ Login.api_banner
       (fst (Login.handleSubmit Sample.platform
               (Rejected Sample.unauthorized) Sample.login_form
               Sample.logged_out))
     = Some (VStr "Invalid email or password").
Proof.
  split; [|reflexivity].
  cbn [response_interceptor fst]. rewrite on_response_error_role.
  storage.
Qed.

(** ** Login page *)

Lemma validate_setErrors (e : value) (pg : Login.Page) :
  Login.validate (Login.setErrors e pg) = Login.validate pg.
Proof. reflexivity. Qed.

(** A rejected request on a valid form: the interceptor acts on the
    browser, then the [catch] clause and the [finally] clause run. *)
Lemma handleSubmit_rejected (P : Platform) (e : AxiosError)
  (pg : Login.Page) (w : World) :
  Login.validate pg = [] ->
  Login.handleSubmit P (Rejected e) pg w
  = (Login.setSubmitting false
       (Login.on_catch (Login.RequestFailed e)
          (Login.setSubmitting true (Login.setErrors (VObj []) pg))),
     on_browser (fun _ => on_response_error e (browser w)) w).
Proof.
  intros Hv. unfold Login.handleSubmit.
  rewrite validate_setErrors, Hv. reflexivity.
Qed.

Lemma on_catch_navigated (ex : Login.Thrown) (pg : Login.Page) :
  Login.navigated (Login.on_catch ex pg) = Login.navigated pg.
Proof.
  unfold Login.on_catch.
  repeat (match goal with
          | |- context [if ?b then _ else _] => destruct b
          end; try reflexivity).
Qed.

(** The page itself never calls the router when the request fails. *)
Lemma handleSubmit_rejected_navigated (P : Platform) (e : AxiosError)
  (pg : Login.Page) (w : World) :
  Login.navigated (fst (Login.handleSubmit P (Rejected e) pg w))
  = Login.navigated pg.
Proof.
  unfold Login.handleSubmit. rewrite validate_setErrors.
  destruct (Login.validate pg); cbn; [|reflexivity].
  now rewrite on_catch_navigated.
Qed.

(** Whatever the form and the prior state: when a valid form is
    submitted and the request fails with status 401 and a truthy
    [error] member [m] in the body, the page shows [m], the router is
    not called, and [/login] has been assigned to
    [window.location.href]. *)
Lemma handleSubmit_401 (P : Platform) (e : AxiosError) (pg : Login.Page)
  (w : World) (m : value) :
  Login.validate pg = [] -> status_is_401 e = true ->
  Login.thrown_body_member (Login.RequestFailed e) "error" = m ->
  truthy m = true ->
  Login.api_banner (fst (Login.handleSubmit P (Rejected e) pg w)) = Some m
  /\ Login.navigated (fst (Login.handleSubmit P (Rejected e) pg w))
     = Login.navigated pg
  /\ location_assigned
       (browser (snd (Login.handleSubmit P (Rejected e) pg w)))
     = (location_assigned (browser w) ++ ["/login"])%list.
Proof.
  intros Hv H401 Hm Ht. split; [|split].
  - rewrite (handleSubmit_rejected P e pg w Hv). cbn [fst].
    unfold Login.on_catch. rewrite Hm, Ht.
    unfold Login.api_banner. cbn. now rewrite Ht.
  - apply handleSubmit_rejected_navigated.
  - rewrite (handleSubmit_rejected P e pg w Hv). cbn [snd].
    cbn [on_browser browser]. now rewrite (on_response_error_401 e _ H401).
Qed.

(** C4, at a failing input.  A valid form is submitted and the backend
    answers 401 with the body [{error: "Invalid email or password"}].
    The page sets that message as its banner and calls the router's
    [navigate] not at all; but the response interceptor has assigned
    [/login] to [window.location.href], which is a full navigation. *)
Theorem login_401_banner_and_full_navigation :
  Login.validate Sample.login_form = []
  /\ Login.api_banner
       (fst (Login.handleSubmit Sample.platform
               (Rejected Sample.unauthorized) Sample.login_form
               Sample.logged_out))
     = Some (VStr "Invalid email or password")
  /\ Login.navigated
       (fst (Login.handleSubmit Sample.platform
               (Rejected Sample.unauthorized) Sample.login_form
               Sample.logged_out))
     = []
  /\ location_assigned
       (browser
          (snd (Login.handleSubmit Sample.platform
                  (Rejected Sample.unauthorized) Sample.login_form
                  Sample.logged_out)))
     = ["/login"].
Proof.
  split; [reflexivity|].
  rewrite (handleSubmit_rejected Sample.platform Sample.unauthorized
             Sample.login_form Sample.logged_out eq_refl).
  repeat split.
Qed.

(** ** Route guard *)

Lemma includes_In (allowedRoles : list string) (s : string) :
  includes allowedRoles (VStr s) = true <-> In s allowedRoles.
Proof.
  unfold includes. rewrite existsb_exists. split.
  - intros (x & Hx & Heq). cbn in Heq. apply String.eqb_eq in Heq.
    now subst.
  - intros H. exists s. split; [exact H|]. cbn. apply String.eqb_refl.
Qed.

Lemma includes_not_In (allowedRoles : list string) (s : string) :
  ~ In s allowedRoles -> includes allowedRoles (VStr s) = false.
Proof.
  intros H. destruct (includes allowedRoles (VStr s)) eqn:E; [|reflexivity].
  apply includes_In in E. contradiction.
Qed.

Lemma length_pos_nonempty {A : Type} (l : list A) :
  l <> [] -> (0 <? length l)%nat = true.
Proof. destruct l; [congruence|reflexivity]. Qed.

Section RouteGuard.
Context (P : Platform).

(** Once loading has finished and the session is authenticated, the
    guard is the role check. *)
Lemma ProtectedRoute_role_check (st : AuthState)
  (allowedRoles : list string) (r : string) :
  loading st = false -> isAuthenticated st = true -> role st = VStr r ->
  allowedRoles <> [] ->
  ProtectedRoute P st allowedRoles
  = if includes allowedRoles (VStr (toUpperCase P r)) then Children
    else Navigate (role_home (VStr (toUpperCase P r))).
Proof.
  intros Hl Ha Hr Hne. unfold ProtectedRoute.
  rewrite Hl, Ha, Hr, (length_pos_nonempty _ Hne). cbn.
  now destruct (includes allowedRoles (VStr (toUpperCase P r))).
Qed.

(** C5.  While [loading] is set the guard renders the placeholder and
    does not redirect; once it is cleared, a session that is not
    authenticated is sent to [/login] whatever [allowedRoles] is; and
    [allowedRoles] has a say in the outcome only when loading has
    finished and the session is authenticated. *)
Theorem ProtectedRoute_order (st : AuthState) (allowedRoles : list string) :
  (loading st = true ->
   ProtectedRoute P st allowedRoles = LoadingPlaceholder)
  /\ (loading st = false -> isAuthenticated st = false ->
      ProtectedRoute P st allowedRoles = Navigate "/login")
  /\ (forall others : list string,
      ProtectedRoute P st allowedRoles <> ProtectedRoute P st others ->
      loading st = false /\ isAuthenticated st = true).
Proof.
  unfold ProtectedRoute. split; [|split].
  - intros ->. reflexivity.
  - intros -> ->. reflexivity.
  - intros others Hdiff.
    destruct (loading st); [now destruct Hdiff|].
    destruct (isAuthenticated st); [split; reflexivity|].
    now destruct Hdiff.
Qed.

(** C6 (amended).  Loading has finished, the session is authenticated
    with a string as role, [allowedRoles] is not empty and does not
    contain the role in upper case.  Then the guard redirects: to the
    facilities list for ADMIN, to the report form for REPORTER, to the
    dashboard for MONITOR, and to the login page for any other role. *)
Theorem ProtectedRoute_wrong_role (st : AuthState)
  (allowedRoles : list string) (r : string) :
  loading st = false -> isAuthenticated st = true -> role st = VStr r ->
  allowedRoles <> [] -> ~ In (toUpperCase P r) allowedRoles ->
  (toUpperCase P r = "ADMIN" ->
   ProtectedRoute P st allowedRoles = Navigate "/admin/facilities")
  /\ (toUpperCase P r = "REPORTER" ->
      ProtectedRoute P st allowedRoles = Navigate "/report")
  /\ (toUpperCase P r = "MONITOR" ->
      ProtectedRoute P st allowedRoles = Navigate "/dashboard")
  /\ (~ In (toUpperCase P r) ["ADMIN"; "REPORTER"; "MONITOR"] ->
      ProtectedRoute P st allowedRoles = Navigate "/login").
Proof.
  intros Hl Ha Hr Hne Hnot.
  rewrite (ProtectedRoute_role_check st allowedRoles r Hl Ha Hr Hne).
  rewrite (includes_not_In _ _ Hnot). unfold role_home. cbn.
  split; [|split; [|split]].
  - intros ->. reflexivity.
  - intros ->. reflexivity.
  - intros ->. reflexivity.
  - intros Hother.
    destruct (String.eqb_spec (toUpperCase P r) "ADMIN") as [E|_];
      [destruct Hother; rewrite E; cbn; auto|].
    destruct (String.eqb_spec (toUpperCase P r) "REPORTER") as [E|_];
      [destruct Hother; rewrite E; cbn; auto|].
    destruct (String.eqb_spec (toUpperCase P r) "MONITOR") as [E|_];
      [destruct Hother; rewrite E; cbn; auto|].
    reflexivity.
Qed.

(** C10.  With an empty [allowedRoles], once loading has finished, every
    authenticated session gets the protected content, whatever its role
    is; and a redirect of an authenticated session happens only with a
    non-empty [allowedRoles]. *)
Theorem ProtectedRoute_no_allowed_roles (st : AuthState) :
  loading st = false -> isAuthenticated st = true ->
  ProtectedRoute P st [] = Children
  /\ (forall (allowedRoles : list string) (to : string),
      ProtectedRoute P st allowedRoles = Navigate to ->
      allowedRoles <> []).
Proof.
  intros Hl Ha. unfold ProtectedRoute. rewrite Hl, Ha. cbn.
  split; [reflexivity|].
  intros allowedRoles to H ->. cbn in H. discriminate.
Qed.

End RouteGuard.

Lemma ProtectedRoute_order_witness :
  loading initial = true
  /\ ProtectedRoute Sample.platform initial ["ADMIN"] = LoadingPlaceholder
  /\ loading (auth Sample.logged_out) = false
  /\ isAuthenticated (auth Sample.logged_out) = false
  /\ ProtectedRoute Sample.platform (auth Sample.logged_out) ["ADMIN"]
     = Navigate "/login"
  /\ ProtectedRoute Sample.platform (auth Sample.logged_in) ["ADMIN"]
     <> ProtectedRoute Sample.platform (auth Sample.logged_in) ["REPORTER"]
  /\ loading (auth Sample.logged_in) = false
  /\ isAuthenticated (auth Sample.logged_in) = true.
Proof.
  split; [reflexivity|].
  split.
  { destruct (ProtectedRoute_order Sample.platform initial ["ADMIN"])
      as (H & _).
    apply H. reflexivity. }
  do 2 (split; [reflexivity|]).
  split.
  { destruct (ProtectedRoute_order Sample.platform
                (auth Sample.logged_out) ["ADMIN"]) as (_ & H & _).
    apply H; reflexivity. }
  assert (Hd : ProtectedRoute Sample.platform (auth Sample.logged_in)
                 ["ADMIN"]
               <> ProtectedRoute Sample.platform (auth Sample.logged_in)
                    ["REPORTER"])
    by (cbn; discriminate).
  split; [exact Hd|].
  destruct (ProtectedRoute_order Sample.platform
              (auth Sample.logged_in) ["ADMIN"]) as (_ & _ & H).
  exact (H ["REPORTER"] Hd).
Defined.

(** The scenario of the specification: a reporter on an admin route is
    sent to the report form. *)
Lemma ProtectedRoute_wrong_role_witness :
  loading (auth Sample.logged_in) = false
  /\ isAuthenticated (auth Sample.logged_in) = true
  /\ role (auth Sample.logged_in) = VStr "REPORTER"
  /\ ["ADMIN"] <> []
  /\ ~ In (toUpperCase Sample.platform "REPORTER") ["ADMIN"]
  /\ toUpperCase Sample.platform "REPORTER" = "REPORTER"
  /\ ProtectedRoute Sample.platform (auth Sample.logged_in) ["ADMIN"]
     = Navigate "/report".
Proof.
  assert (Hne : ["ADMIN"] <> ([] : list string)) by discriminate.
  assert (Hnot : ~ In (toUpperCase Sample.platform "REPORTER") ["ADMIN"]).
  { cbn. intros [H | []]. discriminate H. }
  do 3 (split; [reflexivity|]).
  split; [exact Hne|]. split; [exact Hnot|]. split; [reflexivity|].
  destruct (ProtectedRoute_wrong_role Sample.platform
              (auth Sample.logged_in) ["ADMIN"] "REPORTER"
              eq_refl eq_refl eq_refl Hne Hnot) as (_ & H & _).
  apply H. reflexivity.
Defined.

(** C6 as stated fails: the reporter's role is not in the empty list of
    allowed roles, yet the guard renders the protected content instead
    of redirecting to the report form. *)
Lemma ProtectedRoute_empty_list_no_redirect :
  loading (auth Sample.logged_in) = false
  /\ isAuthenticated (auth Sample.logged_in) = true
  /\ role (auth Sample.logged_in) = VStr "REPORTER"
  /\ ~ In "REPORTER" ([] : list string)
  /\ ProtectedRoute Sample.platform (auth Sample.logged_in) [] = Children.
Proof. repeat split. intros []. Qed.

Lemma ProtectedRoute_no_allowed_roles_witness :
  loading (auth Sample.logged_in) = false
  /\ isAuthenticated (auth Sample.logged_in) = true
  /\ ProtectedRoute Sample.platform (auth Sample.logged_in) [] = Children
  /\ (forall (allowedRoles : list string) (to : string),
      ProtectedRoute Sample.platform (auth Sample.logged_in) allowedRoles
      = Navigate to ->
      allowedRoles <> []).
Proof.
  do 2 (split; [reflexivity|]).
  apply (ProtectedRoute_no_allowed_roles Sample.platform
           (auth Sample.logged_in)); reflexivity.
Defined.

(** ** Dashboard *)

Section Filtering.
Context {A : Type}.

Lemma filter_twice (p q : A -> bool) (l : list A) :
  List.filter q (List.filter p l) = List.filter (fun x => p x && q x) l.
Proof.
  induction l as [|x l IH]; [reflexivity|]. cbn.
  destruct (p x); cbn; [|exact IH].
  destruct (q x); now rewrite IH.
Qed.

Lemma filter_all (l : list A) : List.filter (fun _ => true) l = l.
Proof. induction l as [|x l IH]; [reflexivity|]. cbn. now rewrite IH. Qed.

Lemma filter_split_length (p : A -> bool) (l : list A) :
  (length (List.filter p l) + length (List.filter (fun x => negb (p x)) l)
   = length l)%nat.
Proof.
  induction l as [|x l IH]; [reflexivity|]. cbn.
  destruct (p x); cbn; lia.
Qed.

End Filtering.

Lemma nonempty_eqb (s : string) :
  Dashboard.nonempty s = negb (String.eqb s "").
Proof. reflexivity. Qed.

(** C7.  [filteredFacilities] is the input list, in its order, restricted
    to the facilities that satisfy the country predicate and the city
    predicate, each of which holds of everything when its selection is
    empty; and a change of the country selection, to a country or to
    "all", leaves the city selection empty. *)
Theorem filteredFacilities_conjunctive
  (facilities : list Dashboard.Facility) (flt : Dashboard.Filters) :
  Dashboard.filteredFacilities facilities flt
  = List.filter
      (fun f => Dashboard.country_predicate flt f
                && Dashboard.city_predicate flt f) facilities
  /\ (forall f, In f (Dashboard.filteredFacilities facilities flt) <->
                In f facilities
                /\ Dashboard.country_predicate flt f = true
                /\ Dashboard.city_predicate flt f = true)
  /\ (forall v,
      Dashboard.selectedCountry (Dashboard.onCountryChange v flt) = v
      /\ Dashboard.selectedCity (Dashboard.onCountryChange v flt) = "").
Proof.
  assert (E : Dashboard.filteredFacilities facilities flt
              = List.filter
                  (fun f => Dashboard.country_predicate flt f
                            && Dashboard.city_predicate flt f) facilities).
  { unfold Dashboard.filteredFacilities, Dashboard.country_predicate,
      Dashboard.city_predicate. rewrite !nonempty_eqb.
    destruct (String.eqb (Dashboard.selectedCountry flt) "");
      destruct (String.eqb (Dashboard.selectedCity flt) ""); cbn.
    - now rewrite filter_all.
    - reflexivity.
    - apply filter_ext. intros f. now rewrite andb_true_r.
    - apply filter_twice. }
  split; [exact E|]. split.
  - intros f. rewrite E, filter_In, andb_true_iff. tauto.
  - intros v. split; reflexivity.
Qed.

(** The scenario of the specification: Kenya, then Nairobi. *)
Example filter_Kenya_Nairobi :
  Dashboard.filteredFacilities Sample.six_facilities
    (Dashboard.onCityChange "Nairobi"
       (Dashboard.onCountryChange "Kenya" Dashboard.no_filters))
  = [ Sample.facility "Kenyatta National" "Kenya" "Nairobi" 0 true
        Sample.reported;
      Sample.facility "Aga Khan" "Kenya" "Nairobi" 5 false Sample.reported ].
Proof. reflexivity. Qed.

(** The "No Data Reported" card and the "Active Reports" card split the
    list between them. *)
Lemma cards_no_data_active (fs : list Dashboard.Facility) :
  (Dashboard.card_no_data fs + Dashboard.card_active fs
   = Dashboard.card_total fs)%nat.
Proof. apply filter_split_length. Qed.

(** So the three cards add up to the total plus the critical ones. *)
Lemma cards_sum (fs : list Dashboard.Facility) :
  (Dashboard.card_critical fs + Dashboard.card_no_data fs
   + Dashboard.card_active fs
   = Dashboard.card_total fs + Dashboard.card_critical fs)%nat.
Proof. pose proof (cards_no_data_active fs). lia. Qed.

(** The counts of the pie chart, which leave the critical facilities out
    of the active ones, add up to the total when no critical facility
    lacks an update. *)
Lemma chart_counts_sum (fs : list Dashboard.Facility) :
  (forall f, In f fs -> truthy (Dashboard.critical f) = true ->
             is_null (Dashboard.last_update f) = false) ->
  (Dashboard.criticalCount fs + Dashboard.noDataCount fs
   + Dashboard.activeCount fs = length fs)%nat.
Proof.
  unfold Dashboard.criticalCount, Dashboard.noDataCount,
    Dashboard.activeCount.
  induction fs as [|f fs IH]; intros H; [reflexivity|].
  assert (IH' := IH (fun g Hg => H g (or_intror Hg))).
  specialize (H f (or_introl eq_refl)). cbn.
  destruct (truthy (Dashboard.critical f)).
  - rewrite (H eq_refl). cbn. lia.
  - destruct (is_null (Dashboard.last_update f)); cbn; lia.
Qed.

Lemma filter_none_length {A : Type} (p : A -> bool) (l : list A) :
  length (List.filter p l) = 0%nat <-> forall x, In x l -> p x = false.
Proof.
  induction l as [|y l IH]; cbn.
  - split; [intros _ x []|reflexivity].
  - destruct (p y) eqn:Hy; cbn.
    + split; [discriminate|]. intros H.
      specialize (H y (or_introl eq_refl)). congruence.
    + rewrite IH. split.
      * intros H x [<-|Hx]; [exact Hy|now apply H].
      * intros H x Hx. apply H. now right.
Qed.

(** The counts of the chart count a critical facility without update
    twice, as critical and as without data. *)
Lemma chart_counts_overlap (fs : list Dashboard.Facility) :
  (Dashboard.criticalCount fs + Dashboard.noDataCount fs
   + Dashboard.activeCount fs
   = length fs
     + length (List.filter
                 (fun f => truthy (Dashboard.critical f)
                           && is_null (Dashboard.last_update f)) fs))%nat.
Proof.
  unfold Dashboard.criticalCount, Dashboard.noDataCount,
    Dashboard.activeCount.
  induction fs as [|f fs IH]; [reflexivity|]. cbn [List.filter length].
  destruct (truthy (Dashboard.critical f));
    destruct (is_null (Dashboard.last_update f)); cbn; lia.
Qed.

(** The "Active Reports" card counts the active facilities and the
    critical ones that have an update. *)
Lemma card_active_split (fs : list Dashboard.Facility) :
  (Dashboard.card_active fs
   = Dashboard.activeCount fs
     + length (List.filter
                 (fun f => truthy (Dashboard.critical f)
                           && negb (is_null (Dashboard.last_update f)))
                 fs))%nat.
Proof.
  unfold Dashboard.card_active, Dashboard.activeCount.
  induction fs as [|f fs IH]; [reflexivity|]. cbn [List.filter length].
  destruct (truthy (Dashboard.critical f));
    destruct (is_null (Dashboard.last_update f)); cbn; lia.
Qed.

(** C8.  The status counters of the chart are the entries of
    [statusData]: the number of critical facilities, the number of
    facilities without update and the number of facilities with an
    update that are not critical, each shown when it is above zero.
    They add up to the length of the list and the number of critical
    facilities without update, hence to the length exactly when no
    critical facility lacks an update.  The stat cards show the first
    two numbers, and as "Active Reports" the number of all facilities
    with an update, critical or not; the three cards add up to the
    length and the number of critical facilities.  For the list of two
    critical facilities, one without update and three active ones the
    chart reads 2, 1 and 3. *)
Theorem status_counters (fs : list Dashboard.Facility) :
  (forall item, In item (Dashboard.statusData fs) <->
     (0 < Dashboard.count item)%nat
     /\ In item
          [ {| Dashboard.name := "Critical";
               Dashboard.count :=
                 length (List.filter
                           (fun f => truthy (Dashboard.critical f)) fs);
               Dashboard.color := "#EF4444" |};
            {| Dashboard.name := "No Data";
               Dashboard.count :=
                 length (List.filter
                           (fun f => is_null (Dashboard.last_update f))
                           fs);
               Dashboard.color := "#F59E0B" |};
            {| Dashboard.name := "Active";
               Dashboard.count :=
                 length (List.filter
                           (fun f =>
                              negb (is_null (Dashboard.last_update f))
                              && negb (truthy (Dashboard.critical f)))
                           fs);
               Dashboard.color := "#10B981" |} ])
  /\ (Dashboard.criticalCount fs + Dashboard.noDataCount fs
      + Dashboard.activeCount fs
      = length fs
        + length (List.filter
                    (fun f => truthy (Dashboard.critical f)
                              && is_null (Dashboard.last_update f)) fs))%nat
  /\ ((Dashboard.criticalCount fs + Dashboard.noDataCount fs
       + Dashboard.activeCount fs = length fs)%nat
      <-> (forall f, In f fs -> truthy (Dashboard.critical f) = true ->
             is_null (Dashboard.last_update f) = false))
  /\ Dashboard.card_critical fs = Dashboard.criticalCount fs
  /\ Dashboard.card_no_data fs = Dashboard.noDataCount fs
  /\ (Dashboard.card_active fs
      = Dashboard.activeCount fs
        + length (List.filter
                    (fun f => truthy (Dashboard.critical f)
                              && negb (is_null (Dashboard.last_update f)))
                    fs))%nat
  /\ (Dashboard.card_critical fs + Dashboard.card_no_data fs
      + Dashboard.card_active fs
      = Dashboard.card_total fs + Dashboard.card_critical fs)%nat
  /\ map (fun item => (Dashboard.name item, Dashboard.count item))
       (Dashboard.statusData Sample.six_facilities)
     = [("Critical", 2%nat); ("No Data", 1%nat); ("Active", 3%nat)].
Proof.
  split.
  { intros item. unfold Dashboard.statusData.
    rewrite filter_In, Nat.ltb_lt. tauto. }
  split; [apply chart_counts_overlap|].
  split.
  { rewrite chart_counts_overlap. split.
    - intros H f Hin Hc.
      assert (H0 : length (List.filter
                             (fun f => truthy (Dashboard.critical f)
                                       && is_null (Dashboard.last_update f))
                             fs) = 0%nat) by lia.
      pose proof (proj1 (filter_none_length _ fs) H0 f Hin) as Hf.
      cbn in Hf. rewrite Hc in Hf. exact Hf.
    - intros H.
      assert (H0 : length (List.filter
                             (fun f => truthy (Dashboard.critical f)
                                       && is_null (Dashboard.last_update f))
                             fs) = 0%nat).
      { apply filter_none_length. intros f Hin.
        destruct (truthy (Dashboard.critical f)) eqn:Hc; [|reflexivity].
        cbn. now apply H. }
      lia. }
  split; [reflexivity|]. split; [reflexivity|].
  split; [apply card_active_split|].
  split; [apply cards_sum|]. reflexivity.
Qed.

(** The counters do not always add up to the total.  On the list of two
    critical facilities, one without update and three active ones the
    stat cards read 2, 1 and 5, which is 8 for 6 facilities; and for one
    critical facility that never reported, the chart reads one critical
    and one without data. *)
Example status_counters_exceed_total :
  ((Dashboard.card_critical Sample.six_facilities,
    Dashboard.card_no_data Sample.six_facilities,
    Dashboard.card_active Sample.six_facilities) = (2, 1, 5)%nat
   /\ Dashboard.card_total Sample.six_facilities = 6%nat
   /\ (Dashboard.card_critical Sample.six_facilities
       + Dashboard.card_no_data Sample.six_facilities
       + Dashboard.card_active Sample.six_facilities
       <> Dashboard.card_total Sample.six_facilities)%nat)
  /\ (map (fun item => (Dashboard.name item, Dashboard.count item))
        (Dashboard.statusData
           [Sample.facility "Jinja Regional" "Uganda" "Jinja" 0 true VNull])
      = [("Critical", 1%nat); ("No Data", 1%nat)]
      /\ (list_sum
            (map Dashboard.count
               (Dashboard.statusData
                  [Sample.facility "Jinja Regional" "Uganda" "Jinja" 0 true
                     VNull]))
          <> length
               [Sample.facility "Jinja Regional" "Uganda" "Jinja" 0 true
                  VNull])%nat).
Proof.
  split.
  - split; [reflexivity|]. split; [reflexivity|]. cbn. lia.
  - split; [reflexivity|]. cbn. lia.
Qed.

(** * Further properties *)

(** ** Session store: how the operations compose *)

Lemma world_eq (w1 w2 : World) :
  auth w1 = auth w2 ->
  localStorage (browser w1) = localStorage (browser w2) ->
  location_assigned (browser w1) = location_assigned (browser w2) ->
  w1 = w2.
Proof.
  destruct w1 as [a1 [l1 h1]], w2 as [a2 [l2 h2]]. cbn.
  now intros -> -> ->.
Qed.

(** Equalities between storages built from [setItem] and [removeItem]
    on the three session keys. *)
Ltac storage_eq :=
  cbn; apply map_eq; intros k;
  repeat (rewrite lookup_insert || rewrite lookup_delete);
  repeat case_decide; congruence.

Section Composition.
Context (P : Platform).

(** X1.  The stored session depends on the last operation only: a
    [logout] after a [login] leaves the world as a [logout] alone does,
    a second [login] replaces the first, and [logout] twice is [logout]
    once.  Neither operation touches an entry under another key than
    the three of the session, nor the location. *)
Theorem login_logout_compose (t u r t' u' r' : value) (w : World) :
  logout (login P t u r w) = logout w
  /\ login P t' u' r' (login P t u r w) = login P t' u' r' w
  /\ login P t' u' r' (logout w) = login P t' u' r' w
  /\ logout (logout w) = logout w
  /\ (forall k, k <> "access_token" -> k <> "user" -> k <> "role" ->
      getItem k (browser (login P t u r w)) = getItem k (browser w)
      /\ getItem k (browser (logout w)) = getItem k (browser w))
  /\ location_assigned (browser (login P t u r w))
     = location_assigned (browser w)
  /\ location_assigned (browser (logout w))
     = location_assigned (browser w).
Proof.
  do 4 (split; [apply world_eq; try reflexivity; storage_eq|]).
  split; [|split; reflexivity].
  intros k H1 H2 H3. unfold getItem. cbn. split.
  - now rewrite !lookup_insert_ne by congruence.
  - now rewrite !lookup_delete_ne by congruence.
Qed.

(** X2.  A session survives a page load.  After [login] with a
    non-empty string token whose payload decodes to an expiry after the
    clock, a user record that [JSON.stringify] and [JSON.parse] carry
    to a non-empty text and back, and a non-empty string role, the
    mount effect of the next page load restores token, user and role
    and clears [loading]; the storage is as [login] left it. *)
Theorem login_survives_reload (now : Z) (t r s : string) (u : value)
  (w : World) :
  t <> "" -> r <> "" ->
  JSON_stringify P u = Some s -> s <> "" -> JSON_parse P s = Some u ->
  truthy (decodeToken P (VStr t))
    && gt (mul (ToNumber P (get (decodeToken P (VStr t)) "exp")) 1000) now
    = true ->
  AuthProvider_mount P now
    {| auth := initial;
       browser := browser (login P (VStr t) u (VStr r) w) |}
  = Normal
      {| auth := {| user := u; role := VStr r; token := VStr t;
                    loading := false |};
         browser := browser (login P (VStr t) u (VStr r) w) |}.
Proof.
  intros Nt Nr Hs Ns Hp Hexp. unfold AuthProvider_mount.
  assert (Ht : getItem "access_token"
                 (browser (login P (VStr t) u (VStr r) w)) = Some t)
    by storage.
  assert (Hu : getItem "user"
                 (browser (login P (VStr t) u (VStr r) w)) = Some s).
  { unfold getItem. cbn. rewrite Hs. now simplify_map_eq. }
  assert (Hr : getItem "role"
                 (browser (login P (VStr t) u (VStr r) w)) = Some r)
    by storage.
  cbn [browser]. rewrite Ht, Hu, Hr.
  apply String.eqb_neq in Nt, Nr, Ns. rewrite Nt, Nr, Ns. cbn [negb andb].
  rewrite Hexp, Hp. reflexivity.
Qed.

(** X3.  The mount effect of a page load never restores an expired
    session: when it ends with an authenticated state, the stored token
    is the token of the state, its payload decodes to an expiry after
    the clock, and the storage is untouched. *)
Theorem mount_authenticated_unexpired (now : Z) (br : Browser) (w : World) :
  AuthProvider_mount P now {| auth := initial; browser := br |} = Normal w ->
  isAuthenticated (auth w) = true ->
  exists t : string,
    getItem "access_token" br = Some t
    /\ token (auth w) = VStr t
    /\ gt (mul (ToNumber P (get (decodeToken P (VStr t)) "exp")) 1000) now
       = true
    /\ browser w = br.
Proof.
  unfold AuthProvider_mount. cbn [browser]. intros Hm Ha.
  destruct (getItem "access_token" br) as [t|];
    [|injection Hm as <-; discriminate Ha].
  destruct (getItem "user" br) as [u|];
    [|injection Hm as <-; discriminate Ha].
  destruct (getItem "role" br) as [r|];
    [|injection Hm as <-; discriminate Ha].
  destruct (negb (t =? "")%string && negb (u =? "")%string
            && negb (r =? "")%string);
    [|injection Hm as <-; discriminate Ha].
  destruct (truthy (decodeToken P (VStr t))) eqn:Hd;
    [|injection Hm as <-; discriminate Ha].
  destruct (gt _ now) eqn:Hg; cbn [andb] in Hm;
    [|injection Hm as <-; discriminate Ha].
  destruct (JSON_parse P u); [|discriminate Hm].
  injection Hm as <-. exists t. repeat split. exact Hg.
Qed.

(** X4.  The mount effect throws exactly when the three stored entries
    are non-empty, the token is unexpired, and the stored user is not
    JSON.  It has then set the token only: [loading] is not cleared and
    nothing is removed from the storage, so the next page load throws
    again. *)
Theorem mount_throws_iff (now : Z) (w w' : World) :
  AuthProvider_mount P now w = Abrupt w'
  <-> exists t u r : string,
        getItem "access_token" (browser w) = Some t
        /\ getItem "user" (browser w) = Some u
        /\ getItem "role" (browser w) = Some r
        /\ t <> "" /\ u <> "" /\ r <> ""
        /\ truthy (decodeToken P (VStr t))
           && gt (mul (ToNumber P (get (decodeToken P (VStr t)) "exp"))
                    1000) now = true
        /\ JSON_parse P u = None
        /\ w' = setToken (VStr t) w.
Proof.
  unfold AuthProvider_mount. split.
  - intros Hm.
    destruct (getItem "access_token" (browser w)) as [t|];
      [|discriminate Hm].
    destruct (getItem "user" (browser w)) as [u|]; [|discriminate Hm].
    destruct (getItem "role" (browser w)) as [r|]; [|discriminate Hm].
    destruct (String.eqb_spec t ""); [discriminate Hm|].
    destruct (String.eqb_spec u ""); [discriminate Hm|].
    destruct (String.eqb_spec r ""); [discriminate Hm|].
    cbn [negb andb] in Hm.
    destruct (truthy (decodeToken P (VStr t)) && gt _ now) eqn:Hexp;
      [|discriminate Hm].
    destruct (JSON_parse P u) eqn:Hp; [discriminate Hm|].
    injection Hm as <-. exists t, u, r. repeat split; assumption.
  - intros (t & u & r & -> & -> & -> & Nt & Nu & Nr & Hexp & Hp & ->).
    apply String.eqb_neq in Nt, Nu, Nr. rewrite Nt, Nu, Nr.
    cbn [negb andb]. now rewrite Hexp, Hp.
Qed.

End Composition.

(** A display preference stored beside the session is still there
    after a login and after a logout. *)
Lemma login_logout_compose_witness :
  getItem "theme"
    (browser (login Sample.platform (VStr Sample.token_2001)
                Sample.user_record (VStr "MONITOR")
                (Fixtures.page_load Fixtures.with_preference)))
  = Some "dark"
  /\ getItem "theme"
       (browser (logout (Fixtures.page_load Fixtures.with_preference)))
     = Some "dark".
Proof.
  destruct (login_logout_compose Sample.platform
              (VStr Sample.token_2001) Sample.user_record (VStr "MONITOR")
              VNull VNull VNull
              (Fixtures.page_load Fixtures.with_preference))
    as (_ & _ & _ & _ & H & _).
  destruct (H "theme") as [H1 H2]; try discriminate.
  rewrite H1, H2. split; reflexivity.
Defined.

Lemma login_survives_reload_witness :
  AuthProvider_mount Sample.platform Sample.now_2026
    {| auth := initial; browser := browser Sample.logged_in |}
  = Normal
      {| auth := {| user := Sample.user_record; role := VStr "REPORTER";
                    token := VStr Sample.token_2033; loading := false |};
         browser := browser Sample.logged_in |}.
Proof.
  apply (login_survives_reload Sample.platform Sample.now_2026
           Sample.token_2033 "REPORTER" Sample.user_text
           Sample.user_record Sample.logged_out);
    try discriminate; reflexivity.
Defined.

Lemma mount_authenticated_unexpired_witness :
  exists t : string,
    getItem "access_token" (browser Sample.logged_in) = Some t
    /\ VStr Sample.token_2033 = VStr t
    /\ gt (mul (ToNumber Sample.platform
                  (get (decodeToken Sample.platform (VStr t)) "exp")) 1000)
         Sample.now_2026 = true
    /\ browser Sample.logged_in = browser Sample.logged_in.
Proof.
  apply (mount_authenticated_unexpired Sample.platform Sample.now_2026
           (browser Sample.logged_in)
           {| auth := {| user := Sample.user_record;
                         role := VStr "REPORTER";
                         token := VStr Sample.token_2033;
                         loading := false |};
              browser := browser Sample.logged_in |}).
  - vm_compute. reflexivity.
  - reflexivity.
Defined.

(** A page load over a storage whose user entry is not JSON. *)
Lemma mount_throws_iff_witness :
  AuthProvider_mount Sample.platform Sample.now_2026
    (Fixtures.page_load Fixtures.corrupted_user)
  = Abrupt (setToken (VStr Sample.token_2033)
              (Fixtures.page_load Fixtures.corrupted_user)).
Proof.
  apply (mount_throws_iff Sample.platform).
  exists Sample.token_2033, "not json", "REPORTER".
  repeat split; try discriminate; vm_compute; reflexivity.
Defined.

(** ** After a 401, after a logout *)

Section AfterLogout.
Context (P : Platform).

(** X5.  After the 401 handler has run, the next page load is logged
    out: the mount effect restores nothing and clears [loading],
    whatever else the storage holds, and every protected route then
    redirects to the login page. *)
Theorem reload_after_401 (now : Z) (e : AxiosError) (br : Browser)
  (allowedRoles : list string) :
  status_is_401 e = true ->
  AuthProvider_mount P now
    {| auth := initial; browser := on_response_error e br |}
  = Normal
      {| auth := {| user := VNull; role := VNull; token := VNull;
                    loading := false |};
         browser := on_response_error e br |}
  /\ ProtectedRoute P
       (auth (final (AuthProvider_mount P now
                       {| auth := initial;
                          browser := on_response_error e br |})))
       allowedRoles
     = Navigate "/login".
Proof.
  intros H401.
  assert (Hm : AuthProvider_mount P now
                 {| auth := initial; browser := on_response_error e br |}
               = Normal
                   {| auth := {| user := VNull; role := VNull;
                                 token := VNull; loading := false |};
                      browser := on_response_error e br |}).
  { unfold AuthProvider_mount. cbn [browser].
    assert (Ht : getItem "access_token" (on_response_error e br) = None).
    { rewrite (on_response_error_401 e br H401). storage. }
    now rewrite Ht. }
  split; [exact Hm|]. rewrite Hm. reflexivity.
Qed.

(** X6.  What the request interceptor attaches.  After [login] every
    request carries [Bearer] followed by the token as stored, unless
    that string is empty; after [logout], and after a 401 response, no
    header is attached. *)
Theorem request_header_follows_session (headers : gmap string string)
  (t u r : value) (w : World) (e : AxiosError) :
  AxiosRequest.on_request headers (browser (login P t u r w))
  = (if String.eqb (ToString P t) "" then headers
     else <["Authorization" := "Bearer " ++ ToString P t]> headers)
  /\ AxiosRequest.on_request headers (browser (logout w)) = headers
  /\ (status_is_401 e = true ->
      AxiosRequest.on_request headers (on_response_error e (browser w))
      = headers).
Proof.
  unfold AxiosRequest.on_request. split; [|split].
  - assert (Ht : getItem "access_token" (browser (login P t u r w))
                 = Some (ToString P t)) by storage.
    rewrite Ht. now destruct (String.eqb (ToString P t) "").
  - assert (Ht : getItem "access_token" (browser (logout w)) = None)
      by storage.
    now rewrite Ht.
  - intros H401.
    assert (Ht : getItem "access_token" (on_response_error e (browser w))
                 = None).
    { rewrite (on_response_error_401 e _ H401). storage. }
    now rewrite Ht.
Qed.

(** X7.  What the response interceptor never does: it never changes
    how the request settles, it never writes a storage entry, it leaves
    every entry other than the token and the user record in place, and
    unless the request was rejected with status 401 it changes nothing
    at all. *)
Theorem response_interceptor_frame (s : Settled) (br : Browser) :
  snd (response_interceptor s br) = s
  /\ (forall k v,
      getItem k (fst (response_interceptor s br)) = Some v ->
      getItem k br = Some v)
  /\ (forall k, k <> "access_token" -> k <> "user" ->
      getItem k (fst (response_interceptor s br)) = getItem k br)
  /\ (fst (response_interceptor s br) = br
      \/ exists e, s = Rejected e /\ status_is_401 e = true).
Proof.
  destruct s as [r|e]; cbn [response_interceptor fst snd].
  { repeat split; auto. }
  unfold on_response_error.
  destruct (status_is_401 e) eqn:H401; [|repeat split; auto].
  split; [reflexivity|]. split; [|split].
  - intros k v. unfold getItem. cbn.
    rewrite !lookup_delete. repeat case_decide; congruence.
  - intros k Hk1 Hk2. unfold getItem. cbn.
    rewrite !lookup_delete. repeat case_decide; congruence.
  - right. exists e. split; [reflexivity|exact H401].
Qed.

End AfterLogout.

Lemma reload_after_401_witness :
  status_is_401 Sample.unauthorized = true
  /\ ProtectedRoute Sample.platform
       (auth (final (AuthProvider_mount Sample.platform Sample.now_2026
                       {| auth := initial;
                          browser :=
                            on_response_error Sample.unauthorized
                              (browser Sample.logged_in) |})))
       ["REPORTER"; "ADMIN"]
     = Navigate "/login".
Proof.
  split; [reflexivity|].
  apply (reload_after_401 Sample.platform Sample.now_2026
           Sample.unauthorized (browser Sample.logged_in)
           ["REPORTER"; "ADMIN"]).
  reflexivity.
Defined.

Lemma request_header_follows_session_witness :
  AxiosRequest.on_request ∅ (browser Sample.logged_in)
  = {["Authorization" := "Bearer " ++ Sample.token_2033]}
  /\ status_is_401 Sample.unauthorized = true
  /\ AxiosRequest.on_request ∅
       (on_response_error Sample.unauthorized (browser Sample.logged_in))
     = ∅.
Proof.
  destruct (request_header_follows_session Sample.platform ∅
              (VStr Sample.token_2033) Sample.user_record
              (VStr "REPORTER") Sample.logged_out Sample.unauthorized)
    as (H1 & _ & _).
  destruct (request_header_follows_session Sample.platform ∅
              (VStr Sample.token_2033) Sample.user_record
              (VStr "REPORTER") Sample.logged_in Sample.unauthorized)
    as (_ & _ & H3).
  split; [exact H1|]. split; [reflexivity|]. exact (H3 eq_refl).
Defined.

Lemma response_interceptor_frame_witness :
  getItem "theme"
    (fst (response_interceptor (Rejected Sample.unauthorized)
            {| localStorage := Fixtures.with_preference;
               location_assigned := [] |}))
  = Some "dark".
Proof.
  destruct (response_interceptor_frame (Rejected Sample.unauthorized)
              {| localStorage := Fixtures.with_preference;
                 location_assigned := [] |}) as (_ & _ & H & _).
  rewrite (H "theme"); [|discriminate|discriminate].
  vm_compute. reflexivity.
Defined.

(** ** Route guard, routes and navigation bar *)

Lemma isAuthenticated_role_truthy (st : AuthState) :
  isAuthenticated st = true -> truthy (role st) = true.
Proof.
  unfold isAuthenticated. intros H.
  apply andb_true_iff in H as [_ H]. exact H.
Qed.


(** The landing page of a role is a route that lists the role, or the
    login page. *)
Lemma role_home_listed (s : string) :
  role_home (VStr s) = "/login"
  \/ exists allowed,
       In (role_home (VStr s), allowed) App.protected_routes
       /\ In s allowed.
Proof.
  unfold role_home. cbn [strict_eq_str].
  destruct (String.eqb_spec s "ADMIN") as [->|_].
  { right. exists ["ADMIN"]. cbn. auto. }
  destruct (String.eqb_spec s "REPORTER") as [->|_].
  { right. exists ["REPORTER"; "ADMIN"]. cbn. auto 6. }
  destruct (String.eqb_spec s "MONITOR") as [->|_].
  { right. exists ["MONITOR"; "ADMIN"]. cbn. auto 6. }
  now left.
Qed.

Section Routing.
Context (P : Platform).

Lemma ProtectedRoute_admits (st : AuthState) (allowedRoles : list string)
  (r : string) :
  loading st = false -> isAuthenticated st = true -> role st = VStr r ->
  In (toUpperCase P r) allowedRoles ->
  ProtectedRoute P st allowedRoles = Children.
Proof.
  intros Hl Ha Hr Hin. unfold ProtectedRoute. rewrite Hl, Ha, Hr.
  cbn [negb optional_toUpperCase].
  destruct (0 <? length allowedRoles)%nat; [|reflexivity].
  apply includes_In in Hin. now rewrite Hin.
Qed.

(** X8.  The guard renders the protected content exactly when loading
    has finished, the session is authenticated, and either no role is
    required or the role is a string whose upper case is among the
    allowed roles. *)
Theorem ProtectedRoute_children_iff (st : AuthState)
  (allowedRoles : list string) :
  ProtectedRoute P st allowedRoles = Children
  <-> loading st = false /\ isAuthenticated st = true
      /\ (allowedRoles = []
          \/ exists r, role st = VStr r
                       /\ In (toUpperCase P r) allowedRoles).
Proof.
  unfold ProtectedRoute. split.
  - destruct (loading st); [discriminate|].
    destruct (isAuthenticated st) eqn:Ha; [|discriminate]. cbn [negb].
    pose proof (isAuthenticated_role_truthy st Ha) as Ht.
    destruct allowedRoles as [|a l]; [auto|]. cbn [length Nat.ltb Nat.leb].
    destruct (role st) as [| |b|n|r|items|ms];
      try discriminate Ht; cbn [optional_toUpperCase]; try discriminate.
    destruct (includes (a :: l) (VStr (toUpperCase P r))) eqn:E;
      [|discriminate].
    intros _. repeat split. right. exists r. split; [reflexivity|].
    now apply includes_In.
  - intros (Hl & Ha & Hroles). rewrite Hl, Ha. cbn [negb].
    destruct Hroles as [->|(r & Hr & Hin)]; [reflexivity|].
    pose proof (ProtectedRoute_admits st allowedRoles r Hl Ha Hr Hin)
      as H.
    unfold ProtectedRoute in H. now rewrite Hl, Ha in H.
Qed.

(** X9.  The guard throws exactly when loading has finished, the
    session is authenticated, some role is required, and the role of
    the session is not a string. *)
Theorem ProtectedRoute_crashes_iff (st : AuthState)
  (allowedRoles : list string) :
  ProtectedRoute P st allowedRoles = Crashed
  <-> loading st = false /\ isAuthenticated st = true
      /\ allowedRoles <> [] /\ (forall r, role st <> VStr r).
Proof.
  unfold ProtectedRoute. split.
  - destruct (loading st); [discriminate|].
    destruct (isAuthenticated st) eqn:Ha; [|discriminate]. cbn [negb].
    destruct allowedRoles as [|a l]; [discriminate|].
    cbn [length Nat.ltb Nat.leb].
    pose proof (isAuthenticated_role_truthy st Ha) as Ht.
    destruct (role st) as [| |b|n|r|items|ms];
      try discriminate Ht; cbn [optional_toUpperCase];
      try (intros _; repeat split; discriminate).
    now destruct (includes (a :: l) (VStr (toUpperCase P r))).
  - intros (-> & Ha & Hne & Hrole).
    pose proof (isAuthenticated_role_truthy st Ha) as Ht.
    rewrite Ha. cbn [negb].
    destruct allowedRoles as [|a l]; [congruence|].
    cbn [length Nat.ltb Nat.leb].
    destruct (role st) as [| |b|n|r|items|ms];
      try discriminate Ht; try reflexivity.
    now destruct (Hrole r).
Qed.

(** X10.  No redirect loop.  When a guard redirects a session, whatever
    roles it requires, the target is the login page or a route of the
    application whose guard admits that session. *)
Theorem guard_redirect_lands (st : AuthState)
  (allowedRoles : list string) (to : string) :
  ProtectedRoute P st allowedRoles = Navigate to ->
  to = "/login"
  \/ exists allowed,
       In (to, allowed) App.protected_routes
       /\ ProtectedRoute P st allowed = Children.
Proof.
  intros Hnav. unfold ProtectedRoute in Hnav.
  destruct (loading st) eqn:Hl; [discriminate|].
  destruct (isAuthenticated st) eqn:Ha; cbn [negb] in Hnav;
    [|injection Hnav as <-; now left].
  destruct (0 <? length allowedRoles)%nat; [|discriminate].
  pose proof (isAuthenticated_role_truthy st Ha) as Ht.
  destruct (role st) as [| |b|n|r|items|ms] eqn:Hr;
    try discriminate Ht; cbn [optional_toUpperCase] in Hnav;
    try discriminate Hnav.
  destruct (includes allowedRoles (VStr (toUpperCase P r)));
    [discriminate|].
  cbn in Hnav. injection Hnav as <-.
  destruct (role_home_listed (toUpperCase P r)) as [E|(allowed & Hin & Hr')];
    [now left|].
  right. exists allowed. split; [exact Hin|].
  now apply (ProtectedRoute_admits st allowed r).
Qed.

End Routing.

Section HomeAndBar.
Context (P : Platform).


(** X12.  No dead links.  Every link that the desktop bar shows to an
    authenticated session leads to a route of the application whose
    guard admits that session. *)
Theorem desktop_links_admitted (st : AuthState) (links : list string)
  (to : string) :
  loading st = false -> isAuthenticated st = true ->
  Navbar.desktop_links P st = Some links -> In to links ->
  exists allowed,
    In (to, allowed) App.protected_routes
    /\ ProtectedRoute P st allowed = Children.
Proof.
  intros Hl Ha Hlinks Hin. unfold Navbar.desktop_links in Hlinks.
  pose proof (isAuthenticated_role_truthy st Ha) as Ht.
  destruct (role st) as [| |b|n|r|items|ms] eqn:Hr;
    try discriminate Ht; cbn [optional_toUpperCase] in Hlinks;
    try discriminate Hlinks.
  injection Hlinks as <-. cbn [strict_eq_str] in Hin.
  assert (Hadmit : forall allowed, In (toUpperCase P r) allowed ->
                     ProtectedRoute P st allowed = Children)
    by (intros allowed; apply (ProtectedRoute_admits P st allowed r);
        assumption).
  apply in_app_or in Hin as [Hin|Hin]; [|apply in_app_or in Hin as [Hin|Hin]].
  - destruct (String.eqb_spec (toUpperCase P r) "ADMIN") as [E|_];
      [|destruct Hin].
    cbn in Hin. destruct Hin as [<-|[<-|[<-|[]]]].
    + exists ["ADMIN"]. split; [cbn; auto|].
      apply Hadmit. rewrite E. cbn. auto.
    + exists ["ADMIN"]. split; [cbn; auto|].
      apply Hadmit. rewrite E. cbn. auto.
    + exists ["MONITOR"; "ADMIN"]. split; [cbn; auto 6|].
      apply Hadmit. rewrite E. cbn. auto.
  - destruct (String.eqb_spec (toUpperCase P r) "REPORTER") as [E|_];
      [|destruct Hin].
    cbn in Hin. destruct Hin as [<-|[]].
    exists ["REPORTER"; "ADMIN"]. split; [cbn; auto 6|].
    apply Hadmit. rewrite E. cbn. auto.
  - destruct (String.eqb_spec (toUpperCase P r) "MONITOR") as [E|_];
      [|destruct Hin].
    cbn in Hin. destruct Hin as [<-|[]].
    exists ["MONITOR"; "ADMIN"]. split; [cbn; auto 6|].
    apply Hadmit. rewrite E. cbn. auto.
Qed.

(** X13.  The mobile bar compares the role as it is, the desktop bar in
    upper case: on a platform whose [toUpperCase] keeps the three role
    names, every link of the mobile bar is a link of the desktop
    bar. *)
Theorem mobile_links_among_desktop (st : AuthState) (to : string) :
  toUpperCase P "ADMIN" = "ADMIN" ->
  toUpperCase P "REPORTER" = "REPORTER" ->
  toUpperCase P "MONITOR" = "MONITOR" ->
  In to (Navbar.mobile_links st) ->
  exists links, Navbar.desktop_links P st = Some links /\ In to links.
Proof.
  intros Ua Ur Um Hin. unfold Navbar.mobile_links in Hin.
  unfold Navbar.desktop_links.
  destruct (role st) as [| |b|n|r|items|ms]; try (now destruct Hin).
  cbn [strict_eq_str optional_toUpperCase] in *.
  destruct (String.eqb_spec r "ADMIN") as [E|_].
  { try rewrite E in Hin. rewrite E. rewrite Ua. eexists.
    split; [reflexivity|]. cbn in *. tauto. }
  destruct (String.eqb_spec r "REPORTER") as [E|_].
  { try rewrite E in Hin. rewrite E. rewrite Ur. eexists.
    split; [reflexivity|]. cbn in *. tauto. }
  destruct (String.eqb_spec r "MONITOR") as [E|_].
  { try rewrite E in Hin. rewrite E. rewrite Um. eexists.
    split; [reflexivity|]. cbn in *. tauto. }
  destruct Hin.
Qed.

(** X14.  After [handleLogout] the session is gone everywhere: the state
    is not authenticated, the three entries are removed, requests carry
    no bearer token, the router was sent to the login page, and once
    loading has finished every guard redirects there too. *)
Theorem handleLogout_ends_session (w : World) (navigated : list string)
  (headers : gmap string string) (allowedRoles : list string) :
  isAuthenticated (auth (fst (Navbar.handleLogout w navigated))) = false
  /\ all_absent (browser (fst (Navbar.handleLogout w navigated)))
  /\ AxiosRequest.on_request headers
       (browser (fst (Navbar.handleLogout w navigated))) = headers
  /\ snd (Navbar.handleLogout w navigated)
     = (navigated ++ ["/login"])%list
  /\ (loading (auth w) = false ->
      ProtectedRoute P (auth (fst (Navbar.handleLogout w navigated)))
        allowedRoles = Navigate "/login").
Proof.
  cbn [Navbar.handleLogout fst snd]. repeat split.
  - storage.
  - storage.
  - storage.
  - unfold AxiosRequest.on_request.
    assert (Ht : getItem "access_token" (browser (logout w)) = None)
      by storage.
    now rewrite Ht.
  - intros Hl. unfold ProtectedRoute. cbn. now rewrite Hl.
Qed.

End HomeAndBar.

Lemma guard_redirect_lands_witness :
  exists allowed,
    In ("/report", allowed) App.protected_routes
    /\ ProtectedRoute Sample.platform (auth Sample.logged_in) allowed
       = Children.
Proof.
  destruct (guard_redirect_lands Sample.platform (auth Sample.logged_in)
              ["ADMIN"] "/report" eq_refl) as [E|H].
  - discriminate E.
  - exact H.
Defined.

Lemma ProtectedRoute_crashes_iff_witness :
  ProtectedRoute Sample.platform (Fixtures.session_of (VNum 5)) ["ADMIN"]
  = Crashed.
Proof.
  apply (ProtectedRoute_crashes_iff Sample.platform).
  repeat split; discriminate.
Defined.

Lemma ProtectedRoute_children_iff_witness :
  ProtectedRoute Sample.platform (Fixtures.session_of (VStr "admin"))
    ["MONITOR"; "ADMIN"] = Children.
Proof.
  apply (ProtectedRoute_children_iff Sample.platform).
  repeat split. right. exists "admin". split; [reflexivity|].
  cbn. auto.
Defined.


Lemma desktop_links_admitted_witness :
  Navbar.desktop_links Sample.platform (Fixtures.session_of (VStr "admin"))
  = Some ["/admin/facilities"; "/admin/users"; "/dashboard"]
  /\ exists allowed,
       In ("/admin/users", allowed) App.protected_routes
       /\ ProtectedRoute Sample.platform
            (Fixtures.session_of (VStr "admin")) allowed = Children.
Proof.
  split; [reflexivity|].
  apply (desktop_links_admitted Sample.platform
           (Fixtures.session_of (VStr "admin"))
           ["/admin/facilities"; "/admin/users"; "/dashboard"]);
    try reflexivity.
  cbn. auto.
Defined.

Lemma mobile_links_among_desktop_witness :
  In "/dashboard" (Navbar.mobile_links (Fixtures.session_of (VStr "MONITOR")))
  /\ exists links,
       Navbar.desktop_links Sample.platform
         (Fixtures.session_of (VStr "MONITOR")) = Some links
       /\ In "/dashboard" links.
Proof.
  assert (Hin : In "/dashboard"
                  (Navbar.mobile_links (Fixtures.session_of (VStr "MONITOR"))))
    by (cbn; auto).
  split; [exact Hin|].
  apply (mobile_links_among_desktop Sample.platform _ _
           eq_refl eq_refl eq_refl Hin).
Defined.

(** A role in lower case has the links of the desktop bar and none in
    the mobile bar. *)
Example mobile_links_lower_case :
  Navbar.mobile_links (Fixtures.session_of (VStr "admin")) = []
  /\ Navbar.desktop_links Sample.platform
       (Fixtures.session_of (VStr "admin"))
     = Some ["/admin/facilities"; "/admin/users"; "/dashboard"].
Proof. split; reflexivity. Qed.

Lemma handleLogout_ends_session_witness :
  loading (auth Sample.logged_in) = false
  /\ ProtectedRoute Sample.platform
       (auth (fst (Navbar.handleLogout Sample.logged_in [])))
       ["REPORTER"; "ADMIN"] = Navigate "/login".
Proof.
  split; [reflexivity|].
  destruct (handleLogout_ends_session Sample.platform Sample.logged_in []
              ∅ ["REPORTER"; "ADMIN"]) as (_ & _ & _ & _ & H).
  apply H. reflexivity.
Defined.

(** ** Login page: which forms are sent, and what a submission does *)

Local Open Scope char_scope.

Lemma dot_tail_spec (l : list ascii) :
  Login.dot_tail l = true
  <-> exists w e rest,
        l = (w ++ "." :: e :: rest)%list /\ Forall LoginPattern.visible w /\ LoginPattern.visible e.
Proof.
  split.
  - induction l as [|c l IH]; [discriminate|]. cbn [Login.dot_tail].
    intros H. apply orb_true_iff in H as [H|H].
    + apply andb_true_iff in H as [Hc Hs]. apply Ascii.eqb_eq in Hc as ->.
      destruct l as [|e rest]; [discriminate|]. cbn in Hs.
      exists [], e, rest. repeat split; [constructor|].
      now apply negb_true_iff in Hs.
    + apply andb_true_iff in H as [Hc Ht]. apply negb_true_iff in Hc.
      destruct (IH Ht) as (w & e & rest & -> & Hw & He).
      exists (c :: w), e, rest. repeat split; [now constructor|exact He].
  - intros (w & e & rest & -> & Hw & He).
    induction Hw as [|c w Hc Hw IH]; cbn [app Login.dot_tail].
    + cbn. unfold LoginPattern.visible in He. now rewrite He.
    + unfold LoginPattern.visible in Hc. rewrite Hc, IH. cbn. apply orb_true_r.
Qed.

Lemma domain_part_spec (l : list ascii) :
  Login.domain_part l = true
  <-> exists d w e rest,
        l = (d :: w ++ "." :: e :: rest)%list
        /\ LoginPattern.visible d /\ Forall LoginPattern.visible w /\ LoginPattern.visible e.
Proof.
  unfold Login.domain_part. split.
  - destruct l as [|d l]; [discriminate|]. intros H.
    apply andb_true_iff in H as [Hd Ht]. apply negb_true_iff in Hd.
    apply dot_tail_spec in Ht as (w & e & rest & -> & Hw & He).
    now exists d, w, e, rest.
  - intros (d & w & e & rest & -> & Hd & Hw & He).
    unfold LoginPattern.visible in Hd. rewrite Hd. cbn.
    apply dot_tail_spec. now exists w, e, rest.
Qed.

Lemma search_at_spec (l : list ascii) (prev : bool) :
  Login.search_at prev l = true
  <-> (prev = true
       /\ exists rest, l = "@" :: rest /\ Login.domain_part rest = true)
      \/ (exists l1 c rest,
            l = (l1 ++ c :: "@" :: rest)%list /\ LoginPattern.visible c
            /\ Login.domain_part rest = true).
Proof.
  revert prev. induction l as [|x l IH]; intros prev.
  - cbn. split; [discriminate|].
    intros [(_ & rest & H & _)|(l1 & c & rest & H & _)];
      [discriminate|now destruct l1].
  - cbn [Login.search_at]. rewrite orb_true_iff, IH. split.
    + intros [H|[(Hx & rest & -> & Hd)|(l1 & c & rest & -> & Hc & Hd)]].
      * apply andb_true_iff in H as [H Hd].
        apply andb_true_iff in H as [Hp Hx].
        apply Ascii.eqb_eq in Hx as ->. left. split; [exact Hp|].
        now exists l.
      * right. exists [], x, rest. repeat split; [|exact Hd].
        now apply negb_true_iff in Hx.
      * right. now exists (x :: l1), c, rest.
    + intros [(-> & rest & E & Hd)|(l1 & c & rest & E & Hc & Hd)].
      * injection E as -> ->. left. cbn. exact Hd.
      * right. destruct l1 as [|y l1]; cbn in E; injection E as -> ->.
        -- left. split; [now apply negb_true_iff|]. now exists rest.
        -- right. now exists l1, c, rest.
Qed.

(** The pattern of the e-mail check is found in [s] exactly when [s]
    holds, somewhere, a visible character, an at sign, one or more
    visible characters, a dot and a visible character. *)
Lemma email_pattern_spec (s : string) :
  Login.email_pattern_test s = true
  <-> exists l1 c d w e rest,
        list_ascii_of_string s
        = (l1 ++ c :: "@" :: d :: w ++ "." :: e :: rest)%list
        /\ LoginPattern.visible c /\ LoginPattern.visible d /\ Forall LoginPattern.visible w /\ LoginPattern.visible e.
Proof.
  unfold Login.email_pattern_test. rewrite search_at_spec. split.
  - intros [(H & _)|(l1 & c & rest & E & Hc & Hd)]; [discriminate|].
    apply domain_part_spec in Hd as (d & w & e & rest' & -> & Hd & Hw & He).
    now exists l1, c, d, w, e, rest'.
  - intros (l1 & c & d & w & e & rest & E & Hc & Hd & Hw & He).
    right. exists l1, c, (d :: w ++ "." :: e :: rest)%list.
    repeat split; [exact E|exact Hc|].
    apply domain_part_spec. now exists d, w, e, rest.
Qed.

Lemma blank_spec (s : string) :
  blank s = true
  <-> Forall (fun c => is_space c = true) (list_ascii_of_string s).
Proof.
  induction s as [|c s IH]; cbn.
  - split; [constructor|reflexivity].
  - rewrite andb_true_iff, IH. split.
    + intros [Hc Hs]. now constructor.
    + intros H. inversion H; subst. now split.
Qed.

(** A string in which the pattern is found is not blank. *)
Lemma email_pattern_not_blank (s : string) :
  Login.email_pattern_test s = true -> blank s = false.
Proof.
  intros H. apply email_pattern_spec in H
    as (l1 & c & d & w & e & rest & E & Hc & _).
  destruct (blank s) eqn:Hb; [|reflexivity].
  apply blank_spec in Hb. rewrite E in Hb.
  apply Forall_app in Hb as [_ Hb]. inversion Hb; subst.
  unfold LoginPattern.visible in Hc. congruence.
Qed.

Lemma login_validate_nil (pg : Login.Page) :
  Login.validate pg = []
  <-> Login.email_pattern_test (Login.email pg) = true
      /\ (6 <= String.length (Login.password pg))%nat.
Proof.
  unfold Login.validate. split.
  - intros H. apply app_eq_nil in H as [He Hp].
    destruct (blank (Login.email pg)); [discriminate|].
    destruct (Login.email_pattern_test (Login.email pg)); [|discriminate].
    destruct (String.eqb (Login.password pg) ""); [discriminate|].
    destruct (Nat.ltb_spec (String.length (Login.password pg)) 6);
      [discriminate|].
    split; [reflexivity|assumption].
  - intros [He Hp]. rewrite (email_pattern_not_blank _ He), He.
    cbn [negb app].
    destruct (String.eqb_spec (Login.password pg) "") as [E|_].
    { rewrite E in Hp. cbn in Hp. lia. }
    destruct (Nat.ltb_spec (String.length (Login.password pg)) 6);
      [lia|reflexivity].
Qed.

(** X15.  The login form is sent exactly when the password has six
    characters or more and the e-mail field holds, somewhere, a visible
    character, an at sign, one or more visible characters, a dot and a
    visible character.  Nothing is required of the text around that
    part: the pattern is not anchored. *)
Theorem login_form_accepted_iff (pg : Login.Page) :
  Login.validate pg = []
  <-> (exists l1 c d w e rest,
         list_ascii_of_string (Login.email pg)
         = (l1 ++ c :: "@" :: d :: w ++ "." :: e :: rest)%list
         /\ LoginPattern.visible c /\ LoginPattern.visible d /\ Forall LoginPattern.visible w /\ LoginPattern.visible e)
      /\ (6 <= String.length (Login.password pg))%nat.
Proof.
  split.
  - intros H. apply login_validate_nil in H as [He Hp].
    split; [|exact Hp]. apply email_pattern_spec, He.
  - intros [He Hp]. apply login_validate_nil.
    split; [|exact Hp]. apply email_pattern_spec, He.
Qed.

(** An address with text and blanks around it is accepted. *)
Lemma login_form_accepted_iff_witness :
  Login.validate
    {| Login.email := "write to ana@clinic.org please";
       Login.password := "secret";
       Login.errors := VObj [];
       Login.submitting := false;
       Login.navigated := [] |} = [].
Proof.
  apply login_form_accepted_iff. split; [|cbn; lia].
  exists (list_ascii_of_string "write to an"), "a", "c",
    (list_ascii_of_string "linic"), "o",
    (list_ascii_of_string "rg please").
  repeat split; repeat constructor.
Defined.

Local Close Scope char_scope.

Section Submission.
Context (P : Platform).

(** X16.  A form that fails validation is not sent: whatever the
    backend would answer, the world (state, storage, location) is as
    before, the router is not called, and the errors shown are those of
    [validate].  A form that passes always ends with the submit button
    enabled again, whatever the answer and whatever is thrown on the
    way. *)
Theorem handleSubmit_validation_gate (reply : Settled) (pg : Login.Page)
  (w : World) :
  (Login.validate pg <> [] ->
   snd (Login.handleSubmit P reply pg w) = w
   /\ Login.navigated (fst (Login.handleSubmit P reply pg w))
      = Login.navigated pg
   /\ Login.errors (fst (Login.handleSubmit P reply pg w))
      = VObj (Login.validate pg))
  /\ (Login.validate pg = [] ->
      Login.submitting (fst (Login.handleSubmit P reply pg w)) = false).
Proof.
  unfold Login.handleSubmit. rewrite validate_setErrors. split.
  - intros Hne. destruct (Login.validate pg) as [|x l]; [congruence|].
    repeat split.
  - intros ->. destruct reply as [r|e]; cbn [response_interceptor].
    + unfold Login.on_fulfilled.
      destruct (nullish (data r)); [reflexivity|].
      now destruct (get (data r) "role").
    + reflexivity.
Qed.

(** X17.  The page calls the router only after it has stored the
    session: when a submission has navigated, the request was
    fulfilled, the role of the answer is a string, [login] has run with
    the token, the user record and the role of the answer, and the one
    path handed to the router is the landing page of that role. *)
Theorem handleSubmit_navigates_after_login (reply : Settled)
  (pg : Login.Page) (w : World) :
  Login.navigated (fst (Login.handleSubmit P reply pg w))
  <> Login.navigated pg ->
  exists resp r,
    reply = Fulfilled resp
    /\ get (data resp) "role" = VStr r
    /\ Login.navigated (fst (Login.handleSubmit P reply pg w))
       = (Login.navigated pg
          ++ [Login.landing_after_login (toUpperCase P r)])%list
    /\ snd (Login.handleSubmit P reply pg w)
       = login P (get (data resp) "access_token")
           (VObj [("email", VStr (Login.email pg));
                  ("facility_id", get (data resp) "facility_id")])
           (VStr r) w.
Proof.
  destruct reply as [resp|e];
    [|now rewrite handleSubmit_rejected_navigated].
  unfold Login.handleSubmit. rewrite validate_setErrors.
  destruct (Login.validate pg) as [|x l]; [|now intros []].
  cbn [response_interceptor]. unfold Login.on_fulfilled.
  destruct (nullish (data resp)).
  { cbn [fst Login.setSubmitting Login.navigated].
    rewrite on_catch_navigated. now intros []. }
  destruct (get (data resp) "role") as [| |b|n|r|items|ms] eqn:Hr;
    try (cbn [fst Login.setSubmitting Login.navigated];
         rewrite on_catch_navigated; now intros []).
  intros _. exists resp, r.
  split; [reflexivity|]. split; [exact Hr|]. split; [reflexivity|].
  destruct w as [a [ls loc]]. reflexivity.
Qed.

(** X18.  A fulfilled login whose answer has a truthy token and a
    string as role: the state is authenticated and the router gets the
    landing page of the role.  For ADMIN, REPORTER and MONITOR, in any
    case of letters, that page is a route whose guard admits the new
    session; for any other role the page is [/], from where
    [HomeRedirect] sends the session, authenticated as it is, back to
    the login page. *)
Theorem login_success_lands (resp : Response) (pg : Login.Page) (w : World)
  (r : string) :
  Login.validate pg = [] -> loading (auth w) = false ->
  get (data resp) "role" = VStr r ->
  truthy (get (data resp) "access_token") = true -> r <> "" ->
  isAuthenticated
    (auth (snd (Login.handleSubmit P (Fulfilled resp) pg w))) = true
  /\ Login.navigated (fst (Login.handleSubmit P (Fulfilled resp) pg w))
     = (Login.navigated pg
        ++ [Login.landing_after_login (toUpperCase P r)])%list
  /\ (In (toUpperCase P r) ["ADMIN"; "REPORTER"; "MONITOR"] ->
      exists allowed,
        In (Login.landing_after_login (toUpperCase P r), allowed)
          App.protected_routes
        /\ ProtectedRoute P
             (auth (snd (Login.handleSubmit P (Fulfilled resp) pg w)))
             allowed = Children)
  /\ (~ In (toUpperCase P r) ["ADMIN"; "REPORTER"; "MONITOR"] ->
      Login.landing_after_login (toUpperCase P r) = "/"
      /\ App.HomeRedirect P
           (auth (snd (Login.handleSubmit P (Fulfilled resp) pg w)))
         = Navigate "/login").
Proof.
  intros Hv Hl Hr Ht Hne.
  assert (Hnull : nullish (data resp) = false).
  { destruct (data resp); try discriminate Hr; reflexivity. }
  assert (E : Login.handleSubmit P (Fulfilled resp) pg w
              = (Login.setSubmitting false
                   (Login.navigate
                      (Login.landing_after_login (toUpperCase P r))
                      (Login.setSubmitting true
                         (Login.setErrors (VObj []) pg))),
                 login P (get (data resp) "access_token")
                   (VObj [("email", VStr (Login.email pg));
                          ("facility_id", get (data resp) "facility_id")])
                   (VStr r) w)).
  { unfold Login.handleSubmit. rewrite validate_setErrors, Hv.
    cbn [response_interceptor]. unfold Login.on_fulfilled.
    rewrite Hnull, Hr. destruct w as [a [ls loc]]. reflexivity. }
  rewrite E. cbn [fst snd].
  assert (Ha : isAuthenticated
                 (auth (login P (get (data resp) "access_token")
                          (VObj [("email", VStr (Login.email pg));
                                 ("facility_id",
                                  get (data resp) "facility_id")])
                          (VStr r) w)) = true).
  { rewrite isAuthenticated_login, Ht. cbn.
    apply String.eqb_neq in Hne. now rewrite Hne. }
  split; [exact Ha|]. split; [reflexivity|]. split.
  - intros Hin.
    assert (Hadmit : forall allowed, In (toUpperCase P r) allowed ->
              ProtectedRoute P
                (auth (login P (get (data resp) "access_token")
                         (VObj [("email", VStr (Login.email pg));
                                ("facility_id",
                                 get (data resp) "facility_id")])
                         (VStr r) w)) allowed = Children).
    { intros allowed Hal.
      apply (ProtectedRoute_admits P _ allowed r);
        [exact Hl|exact Ha|reflexivity|exact Hal]. }
    cbn in Hin. destruct Hin as [E'|[E'|[E'|[]]]]; rewrite <- E'.
    + exists ["ADMIN"]. split; [cbn; auto|]. apply Hadmit.
      rewrite <- E'. cbn. auto.
    + exists ["REPORTER"; "ADMIN"]. split; [cbn; auto 6|]. apply Hadmit.
      rewrite <- E'. cbn. auto.
    + exists ["MONITOR"; "ADMIN"]. split; [cbn; auto 6|]. apply Hadmit.
      rewrite <- E'. cbn. auto.
  - intros Hnot. unfold App.HomeRedirect. rewrite Ha.
    cbn [negb login auth on_browser setRole role optional_toUpperCase].
    unfold Login.landing_after_login, App.home_target.
    cbn [strict_eq_str].
    destruct (String.eqb_spec (toUpperCase P r) "ADMIN") as [E'|_];
      [destruct Hnot; rewrite E'; cbn; auto|].
    destruct (String.eqb_spec (toUpperCase P r) "REPORTER") as [E'|_];
      [destruct Hnot; rewrite E'; cbn; auto|].
    destruct (String.eqb_spec (toUpperCase P r) "MONITOR") as [E'|_];
      [destruct Hnot; rewrite E'; cbn; auto|].
    split; reflexivity.
Qed.


End Submission.

Lemma handleSubmit_validation_gate_witness :
  Login.validate
    {| Login.email := "ana"; Login.password := "";
       Login.errors := VObj []; Login.submitting := false;
       Login.navigated := [] |} <> []
  /\ snd (Login.handleSubmit Sample.platform (Rejected Sample.unauthorized)
            {| Login.email := "ana"; Login.password := "";
               Login.errors := VObj []; Login.submitting := false;
               Login.navigated := [] |} Sample.logged_out)
     = Sample.logged_out
  /\ Login.validate Sample.login_form = []
  /\ Login.submitting
       (fst (Login.handleSubmit Sample.platform
               (Rejected Sample.unauthorized) Sample.login_form
               Sample.logged_out)) = false.
Proof.
  assert (Hne : Login.validate
                  {| Login.email := "ana"; Login.password := "";
                     Login.errors := VObj []; Login.submitting := false;
                     Login.navigated := [] |} <> []) by discriminate.
  split; [exact Hne|]. split.
  - destruct (handleSubmit_validation_gate Sample.platform
                (Rejected Sample.unauthorized)
                {| Login.email := "ana"; Login.password := "";
                   Login.errors := VObj []; Login.submitting := false;
                   Login.navigated := [] |} Sample.logged_out) as (H & _).
    apply (H Hne).
  - split; [reflexivity|].
    destruct (handleSubmit_validation_gate Sample.platform
                (Rejected Sample.unauthorized) Sample.login_form
                Sample.logged_out) as (_ & H).
    apply H. reflexivity.
Defined.

Lemma handleSubmit_navigates_after_login_witness :
  exists resp r,
    Fulfilled Answers.reporter_ok = Fulfilled resp
    /\ get (data resp) "role" = VStr r
    /\ Login.navigated
         (fst (Login.handleSubmit Sample.platform
                 (Fulfilled Answers.reporter_ok) Sample.login_form
                 Sample.logged_out))
       = (Login.navigated Sample.login_form
          ++ [Login.landing_after_login
                (toUpperCase Sample.platform r)])%list
    /\ snd (Login.handleSubmit Sample.platform
              (Fulfilled Answers.reporter_ok) Sample.login_form
              Sample.logged_out)
       = login Sample.platform (get (data resp) "access_token")
           (VObj [("email", VStr (Login.email Sample.login_form));
                  ("facility_id", get (data resp) "facility_id")])
           (VStr r) Sample.logged_out.
Proof.
  apply (handleSubmit_navigates_after_login Sample.platform
           (Fulfilled Answers.reporter_ok) Sample.login_form
           Sample.logged_out).
  vm_compute. discriminate.
Defined.

(** A reporter lands on the report form, which admits the session; an
    auditor is authenticated and sent back to the login page. *)
Lemma login_success_lands_witness :
  (exists allowed,
     In ("/report", allowed) App.protected_routes
     /\ ProtectedRoute Sample.platform
          (auth (snd (Login.handleSubmit Sample.platform
                        (Fulfilled Answers.reporter_ok) Sample.login_form
                        Sample.logged_out)))
          allowed = Children)
  /\ isAuthenticated
       (auth (snd (Login.handleSubmit Sample.platform
                     (Fulfilled Answers.auditor_ok) Sample.login_form
                     Sample.logged_out))) = true
  /\ App.HomeRedirect Sample.platform
       (auth (snd (Login.handleSubmit Sample.platform
                     (Fulfilled Answers.auditor_ok) Sample.login_form
                     Sample.logged_out)))
     = Navigate "/login".
Proof.
  assert (Hne : "reporter" <> "") by discriminate.
  destruct (login_success_lands Sample.platform Answers.reporter_ok
              Sample.login_form Sample.logged_out "reporter"
              eq_refl eq_refl eq_refl eq_refl Hne)
    as (_ & _ & H & _).
  assert (Hne' : "auditor" <> "") by discriminate.
  destruct (login_success_lands Sample.platform Answers.auditor_ok
              Sample.login_form Sample.logged_out "auditor"
              eq_refl eq_refl eq_refl eq_refl Hne')
    as (Ha & _ & _ & H').
  split; [apply H; cbn; auto|]. split; [exact Ha|].
  apply H'. cbn. intros [E|[E|[E|[]]]]; discriminate E.
Defined.


(** ** Dashboard: filter options *)

Lemma distinct_In (l : list value) (v : value) :
  In v (DashboardView.distinct l) <-> In v l.
Proof.
  induction l as [|x l IH]; [reflexivity|]. cbn. split.
  - intros [E|H]; [now left|].
    apply filter_In in H as [H _]. right. now apply IH.
  - intros [E|H]; [now left|].
    destruct (DashboardView.same_value_zero x v) eqn:Hs.
    + left. destruct x, v; cbn in Hs; try discriminate; try reflexivity.
      * apply Bool.eqb_prop in Hs. now subst.
      * apply Z.eqb_eq in Hs. now subst.
      * apply String.eqb_eq in Hs. now subst.
    + right. apply filter_In. split; [now apply IH|]. now rewrite Hs.
Qed.



Section Options.
Context (P : Platform).

Lemma insert_sorted_In (x v : value) (l : list value) :
  In v (DashboardView.insert_sorted P x l) <-> v = x \/ In v l.
Proof.
  induction l as [|y l IH]; cbn; [intuition congruence|].
  destruct (String.leb (ToString P x) (ToString P y)); cbn;
    [intuition congruence|].
  rewrite IH. intuition congruence.
Qed.

Lemma sort_In (v : value) (l : list value) :
  In v (DashboardView.sort P l) <-> In v l.
Proof.
  induction l as [|x l IH]; [reflexivity|]. cbn.
  rewrite insert_sorted_In, IH. intuition congruence.
Qed.





Lemma options_In (l : list value) (v : value) :
  In v (DashboardView.sort P (DashboardView.distinct (List.filter truthy l)))
  <-> truthy v = true /\ In v l.
Proof. rewrite sort_In, distinct_In, filter_In. tauto. Qed.


(** X21.  An option that is a string is no dead end: choosing an offered
    country that is a string, and then an offered city that is a
    string, always leaves at least one facility in the filtered list.
    In general the choice of a text as country leaves a facility
    exactly when some facility has that string as its country; the
    comparison is strict, so that an option made from a value that is
    not a string leaves none unless another facility has its text. *)
Theorem filter_options_not_dead_end (facilities : list Dashboard.Facility)
  (selectedCountry c : string) :
  (In (VStr c) (DashboardView.uniqueCountries P facilities) ->
   Dashboard.filteredFacilities facilities
     (Dashboard.onCountryChange c Dashboard.no_filters) <> [])
  /\ (In (VStr c)
         (DashboardView.uniqueCities P facilities selectedCountry) ->
      Dashboard.filteredFacilities facilities
        (Dashboard.onCityChange c
           (Dashboard.onCountryChange selectedCountry
              Dashboard.no_filters)) <> [])
  /\ (c <> "" ->
      Dashboard.filteredFacilities facilities
        (Dashboard.onCountryChange c Dashboard.no_filters) <> []
      <-> exists f, In f facilities /\ Dashboard.country f = VStr c).
Proof.
  unfold DashboardView.uniqueCountries, DashboardView.uniqueCities.
  split; [|split].
  - intros H. apply options_In in H as [Ht H].
    apply in_map_iff in H as (f & Hc & Hf).
    assert (Hin : In f (Dashboard.filteredFacilities facilities
                          (Dashboard.onCountryChange c
                             Dashboard.no_filters))).
    { unfold Dashboard.filteredFacilities, Dashboard.onCountryChange.
      cbn [Dashboard.selectedCountry Dashboard.selectedCity].
      unfold Dashboard.nonempty at 2. cbn [String.eqb negb].
      unfold Dashboard.nonempty. cbn in Ht. rewrite Ht.
      apply filter_In. split; [exact Hf|]. rewrite Hc. cbn.
      apply String.eqb_refl. }
    intros E. rewrite E in Hin. destruct Hin.
  - intros H. apply options_In in H as [Ht H].
    apply in_map_iff in H as (f & Hc & Hf).
    assert (Hin : In f (Dashboard.filteredFacilities facilities
                          (Dashboard.onCityChange c
                             (Dashboard.onCountryChange selectedCountry
                                Dashboard.no_filters)))).
    { unfold Dashboard.filteredFacilities, Dashboard.onCityChange,
        Dashboard.onCountryChange.
      cbn [Dashboard.selectedCountry Dashboard.selectedCity].
      assert (Hn : Dashboard.nonempty c = true) by exact Ht.
      rewrite Hn.
      destruct (Dashboard.nonempty selectedCountry).
      - apply filter_In. split; [exact Hf|]. rewrite Hc. cbn.
        apply String.eqb_refl.
      - apply filter_In. split; [exact Hf|]. rewrite Hc. cbn.
        apply String.eqb_refl. }
    intros E. rewrite E in Hin. destruct Hin.
  - intros Hne.
    assert (E : Dashboard.filteredFacilities facilities
                  (Dashboard.onCountryChange c Dashboard.no_filters)
                = List.filter
                    (fun f => strict_eq_str (Dashboard.country f) c)
                    facilities).
    { unfold Dashboard.filteredFacilities, Dashboard.onCountryChange.
      cbn [Dashboard.selectedCountry Dashboard.selectedCity].
      unfold Dashboard.nonempty at 2. cbn [String.eqb negb].
      unfold Dashboard.nonempty. apply String.eqb_neq in Hne.
      now rewrite Hne. }
    rewrite E. split.
    + intros Hn.
      destruct (List.filter
                  (fun f => strict_eq_str (Dashboard.country f) c)
                  facilities) as [|f l] eqn:El; [contradiction|].
      assert (Hin : In f (f :: l)) by now left.
      rewrite <- El in Hin. apply filter_In in Hin as [Hin Hs].
      exists f. split; [exact Hin|].
      destruct (Dashboard.country f); cbn in Hs; try discriminate Hs.
      apply String.eqb_eq in Hs. now subst.
    + intros (f & Hin & Hc) El.
      assert (Hf : In f (List.filter
                           (fun f => strict_eq_str (Dashboard.country f) c)
                           facilities)).
      { apply filter_In. split; [exact Hin|]. rewrite Hc. cbn.
        apply String.eqb_refl. }
      rewrite El in Hf. destruct Hf.
Qed.

End Options.

Lemma filter_options_not_dead_end_witness :
  In (VStr "Kenya")
    (DashboardView.uniqueCountries Sample.platform Sample.six_facilities)
  /\ Dashboard.filteredFacilities Sample.six_facilities
       (Dashboard.onCountryChange "Kenya" Dashboard.no_filters) <> []
  /\ In (VStr "Mombasa")
       (DashboardView.uniqueCities Sample.platform Sample.six_facilities
          "Kenya")
  /\ Dashboard.filteredFacilities Sample.six_facilities
       (Dashboard.onCityChange "Mombasa"
          (Dashboard.onCountryChange "Kenya" Dashboard.no_filters)) <> [].
Proof.
  assert (H1 : In (VStr "Kenya")
                 (DashboardView.uniqueCountries Sample.platform
                    Sample.six_facilities)) by (vm_compute; auto).
  assert (H2 : In (VStr "Mombasa")
                 (DashboardView.uniqueCities Sample.platform
                    Sample.six_facilities "Kenya")) by (vm_compute; auto).
  destruct (filter_options_not_dead_end Sample.platform
              Sample.six_facilities "Kenya" "Kenya") as (Ha & _).
  destruct (filter_options_not_dead_end Sample.platform
              Sample.six_facilities "Kenya" "Mombasa") as (_ & Hb & _).
  split; [exact H1|]. split; [exact (Ha H1)|].
  split; [exact H2|]. exact (Hb H2).
Defined.

(** A country given as the number 5 is offered, the select hands its
    text to the filter, and no facility is left. *)
Example filter_option_number_dead_end :
  In (VNum 5)
    (DashboardView.uniqueCountries Sample.platform
       [ {| Dashboard.facility_name := VStr "Station 5";
            Dashboard.country := VNum 5;
            Dashboard.city := VStr "Base";
            Dashboard.icu_beds_available := VNum 1;
            Dashboard.ventilators_available := VNum 1;
            Dashboard.staff_on_duty := VNum 1;
            Dashboard.critical := VBool false;
            Dashboard.last_update := Sample.reported |} ])
  /\ ToString Sample.platform (VNum 5) = "5"
  /\ Dashboard.filteredFacilities
       [ {| Dashboard.facility_name := VStr "Station 5";
            Dashboard.country := VNum 5;
            Dashboard.city := VStr "Base";
            Dashboard.icu_beds_available := VNum 1;
            Dashboard.ventilators_available := VNum 1;
            Dashboard.staff_on_duty := VNum 1;
            Dashboard.critical := VBool false;
            Dashboard.last_update := Sample.reported |} ]
       (Dashboard.onCountryChange "5" Dashboard.no_filters) = [].
Proof. split; [vm_compute; auto|]. split; reflexivity. Qed.

(** The options for the six sample facilities. *)
Example filter_options_sample :
  DashboardView.uniqueCountries Sample.platform Sample.six_facilities
  = [VStr "Kenya"; VStr "Tanzania"; VStr "Uganda"]
  /\ DashboardView.uniqueCities Sample.platform Sample.six_facilities "Kenya"
     = [VStr "Eldoret"; VStr "Mombasa"; VStr "Nairobi"].
Proof. split; vm_compute; reflexivity. Qed.

(** ** Dashboard: status slices and table rows *)

Lemma filter_length_pos {A : Type} (p : A -> bool) (x : A) (l : list A) :
  In x l -> p x = true -> (0 < length (List.filter p l))%nat.
Proof.
  induction l as [|y l IH]; [intros []|]. intros [->|Hin] Hp; cbn.
  - rewrite Hp. cbn. lia.
  - destruct (p y); cbn; [lia|]. now apply IH.
Qed.

Lemma counts_cover (f : Dashboard.Facility) (fs : list Dashboard.Facility) :
  (0 < Dashboard.criticalCount (f :: fs) + Dashboard.noDataCount (f :: fs)
       + Dashboard.activeCount (f :: fs))%nat.
Proof.
  unfold Dashboard.criticalCount, Dashboard.noDataCount,
    Dashboard.activeCount. cbn [List.filter].
  destruct (truthy (Dashboard.critical f)); cbn; [lia|].
  destruct (is_null (Dashboard.last_update f)); cbn; lia.
Qed.

(** X22.  The slices of the status pie.  Every slice shown has a count
    above zero; the slices together carry the three counts, and hence
    the number of facilities when no critical facility lacks an update;
    and there is no slice at all, so that the page says that no status
    data is available, exactly when the filtered list is empty. *)
Theorem statusData_slices (fs : list Dashboard.Facility) :
  (forall item, In item (Dashboard.statusData fs) ->
     (0 < Dashboard.count item)%nat)
  /\ list_sum (map Dashboard.count (Dashboard.statusData fs))
     = (Dashboard.criticalCount fs + Dashboard.noDataCount fs
        + Dashboard.activeCount fs)%nat
  /\ (Dashboard.statusData fs = [] <-> fs = [])
  /\ ((forall f, In f fs -> truthy (Dashboard.critical f) = true ->
         is_null (Dashboard.last_update f) = false) ->
      list_sum (map Dashboard.count (Dashboard.statusData fs)) = length fs).
Proof.
  assert (Hsum : list_sum (map Dashboard.count (Dashboard.statusData fs))
                 = (Dashboard.criticalCount fs + Dashboard.noDataCount fs
                    + Dashboard.activeCount fs)%nat).
  { unfold Dashboard.statusData. cbn [List.filter Dashboard.count].
    destruct (Dashboard.criticalCount fs) as [|a];
      destruct (Dashboard.noDataCount fs) as [|b];
      destruct (Dashboard.activeCount fs) as [|c]; cbn; lia. }
  split; [|split; [exact Hsum|split]].
  - intros item Hin. unfold Dashboard.statusData in Hin.
    apply filter_In in Hin as [_ H]. now apply Nat.ltb_lt in H.
  - split.
    + intros E. destruct fs as [|f fs]; [reflexivity|].
      pose proof (counts_cover f fs) as Hpos.
      rewrite <- Hsum, E in Hpos. cbn in Hpos. lia.
    + intros ->. reflexivity.
  - intros H. rewrite Hsum. now apply chart_counts_sum.
Qed.

Lemma statusData_slices_witness :
  list_sum (map Dashboard.count (Dashboard.statusData Sample.six_facilities))
  = 6%nat.
Proof.
  destruct (statusData_slices Sample.six_facilities) as (_ & _ & _ & H).
  apply H. intros f Hin Hc. cbn in Hin.
  repeat (destruct Hin as [<-|Hin]; [try reflexivity; discriminate Hc|]).
  destruct Hin.
Defined.

(** X23.  The rows of the table fall into three classes, one per row:
    the red rows are the facilities counted as critical, the plain rows
    those counted as active, and the yellow rows are among those counted
    as having no data; the three classes add up to the number of
    rows. *)
Theorem row_colours_partition (fs : list Dashboard.Facility) :
  Rows.rows_with Rows.red fs = Dashboard.criticalCount fs
  /\ Rows.rows_with Rows.plain fs = Dashboard.activeCount fs
  /\ (Rows.rows_with Rows.yellow fs <= Dashboard.noDataCount fs)%nat
  /\ (Rows.rows_with Rows.red fs + Rows.rows_with Rows.yellow fs
      + Rows.rows_with Rows.plain fs = length fs)%nat.
Proof.
  unfold Rows.rows_with, Dashboard.criticalCount, Dashboard.activeCount,
    Dashboard.noDataCount, DashboardView.getStatusColor.
  induction fs as [|f fs (IH1 & IH2 & IH3 & IH4)]; [repeat split; cbn; lia|].
  cbn [List.filter length].
  destruct (truthy (Dashboard.critical f));
    destruct (is_null (Dashboard.last_update f));
    cbn [negb andb String.eqb Ascii.eqb Bool.eqb Rows.red Rows.yellow
         Rows.plain length];
    cbn; repeat split; lia.
Qed.

(** ** Dashboard: elapsed time *)

Section Elapsed.
Context (P : Platform) (time_of : value -> number) (now : Z).

(** X24.  What [getTimeSinceUpdate] says of a truthy time stamp, with
    [e] the milliseconds elapsed since then.  Below a minute: "Just
    now"; below two: "1 minute ago"; below an hour: between 2 and 59
    minutes; below two hours: "1 hour ago"; below a day: between 2 and
    23 hours; below two days: "1 day ago"; after that: 2 days or more,
    each number the elapsed time divided and rounded down.  A time
    stamp in the future, be it by a millisecond, gives a negative
    number of minutes, again rounded down ("-1 minutes ago" within the
    first minute), and an invalid one gives "NaN days ago". *)
Theorem getTimeSinceUpdate_ranges (dateString : value) :
  truthy dateString = true ->
  (time_of dateString = None ->
   DashboardView.getTimeSinceUpdate P time_of now dateString
   = "NaN days ago")
  /\ (forall date e, time_of dateString = Some date -> e = now - date ->
      (0 <= e < 60000 ->
       DashboardView.getTimeSinceUpdate P time_of now dateString
       = "Just now")
      /\ (60000 <= e < 120000 ->
          DashboardView.getTimeSinceUpdate P time_of now dateString
          = "1 minute ago")
      /\ (120000 <= e < 3600000 ->
          DashboardView.getTimeSinceUpdate P time_of now dateString
          = NumberToString P (e / 60000) ++ " minutes ago"
          /\ 2 <= e / 60000 <= 59)
      /\ (3600000 <= e < 7200000 ->
          DashboardView.getTimeSinceUpdate P time_of now dateString
          = "1 hour ago")
      /\ (7200000 <= e < 86400000 ->
          DashboardView.getTimeSinceUpdate P time_of now dateString
          = NumberToString P (e / 3600000) ++ " hours ago"
          /\ 2 <= e / 3600000 <= 23)
      /\ (86400000 <= e < 172800000 ->
          DashboardView.getTimeSinceUpdate P time_of now dateString
          = "1 day ago")
      /\ (172800000 <= e ->
          DashboardView.getTimeSinceUpdate P time_of now dateString
          = NumberToString P (e / 86400000) ++ " days ago"
          /\ 2 <= e / 86400000)
      /\ (e < 0 ->
          DashboardView.getTimeSinceUpdate P time_of now dateString
          = NumberToString P (e / 60000) ++ " minutes ago"
          /\ e / 60000 < 0)).
Proof.
  intros Ht. unfold DashboardView.getTimeSinceUpdate. rewrite Ht.
  cbn [negb]. split; [now intros ->|].
  intros date e -> ->. set (e := now - date).
  assert (Hh : e / 60000 / 60 = e / 3600000)
    by (rewrite Z.div_div by lia; reflexivity).
  assert (Hd : e / 60000 / 60 / 24 = e / 86400000)
    by (rewrite !Z.div_div by lia; reflexivity).
  rewrite Hd, Hh.
  assert (Hm0 : forall a b, a * 60000 <= e < b * 60000 ->
                            a <= e / 60000 < b).
  { intros a b [H1 H2]. split.
    - apply Z.div_le_lower_bound; lia.
    - apply Z.div_lt_upper_bound; lia. }
  assert (Hh0 : forall a b, a * 3600000 <= e < b * 3600000 ->
                            a <= e / 3600000 < b).
  { intros a b [H1 H2]. split.
    - apply Z.div_le_lower_bound; lia.
    - apply Z.div_lt_upper_bound; lia. }
  assert (Hd0 : forall a b, a * 86400000 <= e < b * 86400000 ->
                            a <= e / 86400000 < b).
  { intros a b [H1 H2]. split.
    - apply Z.div_le_lower_bound; lia.
    - apply Z.div_lt_upper_bound; lia. }
  repeat split.
  - intros H. pose proof (Hm0 0 1 ltac:(lia)).
    replace (e / 60000) with 0 by lia. reflexivity.
  - intros H. pose proof (Hm0 1 2 ltac:(lia)).
    replace (e / 60000) with 1 by lia. reflexivity.
  - pose proof (Hm0 2 60 ltac:(lia)) as Hb.
    destruct (Z.eqb_spec (e / 60000) 0); [lia|].
    destruct (Z.eqb_spec (e / 60000) 1); [lia|].
    destruct (Z.ltb_spec (e / 60000) 60); [reflexivity|lia].
  - pose proof (Hm0 2 60 ltac:(lia)). lia.
  - pose proof (Hm0 2 60 ltac:(lia)). lia.
  - intros H. pose proof (Hm0 60 120 ltac:(lia)) as Hb.
    pose proof (Hh0 1 2 ltac:(lia)) as Hb'.
    destruct (Z.eqb_spec (e / 60000) 0); [lia|].
    destruct (Z.eqb_spec (e / 60000) 1); [lia|].
    destruct (Z.ltb_spec (e / 60000) 60); [lia|].
    replace (e / 3600000) with 1 by lia. reflexivity.
  - pose proof (Hm0 120 1440 ltac:(lia)) as Hb.
    pose proof (Hh0 2 24 ltac:(lia)) as Hb'.
    destruct (Z.eqb_spec (e / 60000) 0); [lia|].
    destruct (Z.eqb_spec (e / 60000) 1); [lia|].
    destruct (Z.ltb_spec (e / 60000) 60); [lia|].
    destruct (Z.eqb_spec (e / 3600000) 1); [lia|].
    destruct (Z.ltb_spec (e / 3600000) 24); [reflexivity|lia].
  - pose proof (Hh0 2 24 ltac:(lia)). lia.
  - pose proof (Hh0 2 24 ltac:(lia)). lia.
  - intros H. pose proof (Hm0 1440 2880 ltac:(lia)) as Hb.
    pose proof (Hh0 24 48 ltac:(lia)) as Hb'.
    pose proof (Hd0 1 2 ltac:(lia)) as Hb''.
    destruct (Z.eqb_spec (e / 60000) 0); [lia|].
    destruct (Z.eqb_spec (e / 60000) 1); [lia|].
    destruct (Z.ltb_spec (e / 60000) 60); [lia|].
    destruct (Z.eqb_spec (e / 3600000) 1); [lia|].
    destruct (Z.ltb_spec (e / 3600000) 24); [lia|].
    replace (e / 86400000) with 1 by lia. reflexivity.
  - assert (2880 <= e / 60000) by (apply Z.div_le_lower_bound; lia).
    assert (48 <= e / 3600000) by (apply Z.div_le_lower_bound; lia).
    assert (2 <= e / 86400000) by (apply Z.div_le_lower_bound; lia).
    destruct (Z.eqb_spec (e / 60000) 0); [lia|].
    destruct (Z.eqb_spec (e / 60000) 1); [lia|].
    destruct (Z.ltb_spec (e / 60000) 60); [lia|].
    destruct (Z.eqb_spec (e / 3600000) 1); [lia|].
    destruct (Z.ltb_spec (e / 3600000) 24); [lia|].
    destruct (Z.eqb_spec (e / 86400000) 1); [lia|reflexivity].
  - apply Z.div_le_lower_bound; lia.
  - assert (e / 60000 < 0) by (apply Z.div_lt_upper_bound; lia).
    destruct (Z.eqb_spec (e / 60000) 0); [lia|].
    destruct (Z.eqb_spec (e / 60000) 1); [lia|].
    destruct (Z.ltb_spec (e / 60000) 60); [reflexivity|lia].
  - apply Z.div_lt_upper_bound; lia.
Qed.

End Elapsed.

(** A report of 08:15 read at midnight, the same report read thirty
    seconds before its own time, and a stamp that is no date. *)
Lemma getTimeSinceUpdate_ranges_witness :
  truthy Clock.stamp = true
  /\ DashboardView.getTimeSinceUpdate Sample.platform Clock.time_of
       Sample.now_2026 Clock.stamp = "15 hours ago"
  /\ DashboardView.getTimeSinceUpdate Sample.platform Clock.time_of
       1793434470000 Clock.stamp = "-1 minutes ago"
  /\ DashboardView.getTimeSinceUpdate Sample.platform Clock.time_of
       Sample.now_2026 (VStr "yesterday") = "NaN days ago".
Proof.
  split; [reflexivity|]. split; [|split].
  - destruct (getTimeSinceUpdate_ranges Sample.platform Clock.time_of
                Sample.now_2026 Clock.stamp eq_refl) as (_ & H).
    destruct (H 1793434500000 56700000 eq_refl eq_refl)
      as (_ & _ & _ & _ & H5 & _).
    destruct H5 as [H5 _]; [lia|]. exact H5.
  - destruct (getTimeSinceUpdate_ranges Sample.platform Clock.time_of
                1793434470000 Clock.stamp eq_refl) as (_ & H).
    destruct (H 1793434500000 (-30000) eq_refl eq_refl)
      as (_ & _ & _ & _ & _ & _ & _ & H8).
    destruct H8 as [H8 _]; [lia|]. exact H8.
  - destruct (getTimeSinceUpdate_ranges Sample.platform Clock.time_of
                Sample.now_2026 (VStr "yesterday") eq_refl) as (H & _).
    apply H. reflexivity.
Defined.


(** ** The report form *)

Section Report.
Import JsText ReportForm.
Context (P : Platform) (rounded : Rounding).
















End Report.



(** A number below zero that the server sent is what the other message
    of the form is for. *)
Example report_from_server_invalid :
  ReportForm.validateForm Sample.platform Doubles.nearest
    (ReportForm.on_report
       (VObj [("icu_beds_available", VNum (-1));
              ("ventilators_available", VNum 2);
              ("staff_on_duty", VNull)])
       (ReportForm.initial_formData VNull))
  = <["staff_on_duty" := VStr "Staff on duty is required"]>
      (<["icu_beds_available" :=
           VStr "Must be a non-negative integer"]> ∅).
Proof. vm_compute. reflexivity. Qed.



(** ** The form that creates users *)

Section UsersForm.
Import JsText.

Lemma has_spec (cls : ascii -> bool) (s : string) :
  has cls s = true
  <-> exists c, In c (list_ascii_of_string s) /\ cls c = true.
Proof. unfold has. apply existsb_exists. Qed.

Lemma length_list_ascii (s : string) :
  length (list_ascii_of_string s) = String.length s.
Proof. induction s as [|c s IH]; cbn; congruence. Qed.

(** The rules of the password, all at once. *)
Lemma password_error_None (pw : string) :
  Users.password_error pw = None
  <-> (8 <= String.length pw)%nat
      /\ has is_upper pw = true /\ has is_lower pw = true
      /\ has is_digit pw = true /\ has is_special pw = true.
Proof.
  unfold Users.password_error.
  destruct (String.eqb_spec pw "") as [->|_].
  - split; [discriminate|]. cbn. lia.
  - destruct (Nat.ltb_spec (String.length pw) 8).
    + split; [discriminate|]. lia.
    + destruct (has is_upper pw), (has is_lower pw), (has is_digit pw),
        (has is_special pw); cbn [negb];
        (split; [try discriminate; intros _; repeat split; assumption
                |try reflexivity; intros (_ & ? & ? & ? & ?);
                 discriminate]).
Qed.

Lemma users_validateForm_empty (fd : Users.FormData) :
  Users.validateForm fd = ∅
  <-> Login.email_pattern_test (Users.email fd) = true
      /\ Users.password_error (Users.password fd) = None
      /\ Users.role fd <> ""
      /\ (Users.role fd = "reporter" -> Users.facility_id fd <> "").
Proof.
  unfold Users.validateForm. cbv zeta.
  pose proof (email_pattern_not_blank (Users.email fd)) as Hnb.
  destruct (String.eqb_spec (Users.role fd) "reporter") as [Er|Er];
    destruct (String.eqb_spec (Users.facility_id fd) "") as [Ef|Ef];
    cbn [andb];
    destruct (String.eqb_spec (Users.role fd) "") as [E0|E0];
    destruct (Users.password_error (Users.password fd)) as [m|];
    destruct (blank (Users.email fd)) eqn:Eb;
    destruct (Login.email_pattern_test (Users.email fd)) eqn:Ep;
    cbn [negb];
    (split;
     [intros He; try (exfalso; revert He; apply insert_non_empty);
      repeat split; try assumption; try discriminate; try congruence
     |intros (H1 & H2 & H3 & H4);
      try discriminate; try congruence; try reflexivity;
      try (exfalso; apply (H4 Er Ef));
      try (specialize (Hnb eq_refl); congruence)]).
Qed.

Lemma users_changes_shown (P : Platform)
  (facilities : list AdminFacility.Facility)
  (name val : string) (st : Users.FormData * gmap string value) :
  Users.chosen_is_shown P facilities (fst st) ->
  Users.offered P facilities (fst st) name val ->
  Users.chosen_is_shown P facilities
    (fst (Users.handleInputChange name val st)).
Proof.
  destruct st as [fd errs]. cbn [fst]. intros Hs Ho.
  unfold Users.handleInputChange. cbv zeta. cbn [fst].
  unfold Users.set_field.
  destruct (String.eqb_spec name "email") as [->|_]; [exact Hs|].
  destruct (String.eqb_spec name "password") as [->|_]; [exact Hs|].
  destruct (String.eqb_spec name "role") as [->|_].
  { cbn [andb String.eqb Ascii.eqb Bool.eqb].
    destruct (negb (val =? "reporter")%string); [now left|exact Hs]. }
  destruct (String.eqb_spec name "country") as [->|_]; [now left|].
  destruct (String.eqb_spec name "city") as [->|_]; [now left|].
  destruct (String.eqb_spec name "facility_id") as [->|_];
    [|exact Hs].
  exact (Ho eq_refl).
Qed.

(** X27. The form that creates users is accepted exactly when the
    e-mail address matches the pattern, the password has eight
    characters or more with an upper-case letter, a lower-case letter,
    a digit and one of the eight special characters, a role is chosen,
    and a reporter has a facility. *)
Theorem users_form_accepted_iff (fd : Users.FormData) :
  Users.validateForm fd = ∅
  <-> Login.email_pattern_test (Users.email fd) = true
      /\ (8 <= String.length (Users.password fd))%nat
      /\ (exists c, In c (list_ascii_of_string (Users.password fd))
                    /\ is_upper c = true)
      /\ (exists c, In c (list_ascii_of_string (Users.password fd))
                    /\ is_lower c = true)
      /\ (exists c, In c (list_ascii_of_string (Users.password fd))
                    /\ is_digit c = true)
      /\ (exists c, In c (list_ascii_of_string (Users.password fd))
                    /\ In c (list_ascii_of_string "!@#$%^&*"))
      /\ Users.role fd <> ""
      /\ (Users.role fd = "reporter" -> Users.facility_id fd <> "").
Proof.
  rewrite users_validateForm_empty, password_error_None, !has_spec.
  assert (Hsp : (exists c, In c (list_ascii_of_string (Users.password fd))
                           /\ is_special c = true)
                <-> (exists c,
                        In c (list_ascii_of_string (Users.password fd))
                        /\ In c (list_ascii_of_string "!@#$%^&*"))).
  { split; intros (c & Hin & Hc); exists c; (split; [exact Hin|]).
    - unfold is_special in Hc. apply existsb_exists in Hc as (x & Hx & E).
      apply Ascii.eqb_eq in E. now subst.
    - unfold is_special. apply existsb_exists. exists c.
      split; [exact Hc|apply Ascii.eqb_refl]. }
  rewrite Hsp. tauto.
Qed.

(** X28. Credentials that the form for new users accepts pass the
    validation of the login page: the same pattern for the address, and
    eight characters are more than the six asked there. *)
Theorem users_credentials_pass_login (fd : Users.FormData)
  (pg : Login.Page) :
  Login.email pg = Users.email fd ->
  Login.password pg = Users.password fd ->
  Users.validateForm fd = ∅ ->
  Login.validate pg = [].
Proof.
  intros He Hp Hv. apply users_validateForm_empty in Hv as (H1 & H2 & _).
  apply password_error_None in H2 as (H2 & _).
  apply login_validate_nil. rewrite He, Hp. split; [exact H1|lia].
Qed.

(** X29. Whatever is changed in the form for new users, the facility
    that is chosen is none or one that the facility select shows for
    the chosen country and city: changing the country, the city or the
    role away from reporter drops the choice. *)
Theorem users_facility_invariant (P : Platform)
  (facilities : list AdminFacility.Facility)
  (events : list (string * string))
  (st : Users.FormData * gmap string value) :
  Users.chosen_is_shown P facilities (fst st) ->
  Users.admissible P facilities events st ->
  Users.chosen_is_shown P facilities (fst (Users.changes events st)).
Proof.
  revert st. induction events as [|e events IH]; intros st Hs Ha;
    [exact Hs|].
  destruct Ha as [Ho Ha]. cbn [Users.changes fold_left].
  apply IH; [|exact Ha]. now apply users_changes_shown.
Qed.

(** X30. When the accepted form is submitted, the payload of a
    reporter carries the number of a facility of the chosen country and
    city, and the payload of any other role carries no facility. *)
Theorem users_payload_facility (P : Platform) (rounded : Rounding)
  (facilities : list AdminFacility.Facility)
  (events : list (string * string)) (errs : gmap string value) :
  (forall f, In f facilities ->
     parseInt rounded (NumberToString P (AdminFacility.id f))
     = Integer (AdminFacility.id f)) ->
  Users.admissible P facilities events (Users.initial_formData, errs) ->
  let fd := fst (Users.changes events (Users.initial_formData, errs)) in
  Users.validateForm fd = ∅ ->
  (Users.role fd = "reporter" ->
   exists f, In f facilities
             /\ In f (Users.filteredFacilities facilities fd)
             /\ Users.p_facility_id (Users.payload rounded fd)
                = Some (Integer (AdminFacility.id f)))
  /\ (Users.role fd <> "reporter" ->
      Users.p_facility_id (Users.payload rounded fd) = None).
Proof.
  intros Hnum Ha fd Hv.
  apply users_validateForm_empty in Hv as (_ & _ & _ & Hf).
  split.
  - intros Hr. specialize (Hf Hr).
    assert (Hs : Users.chosen_is_shown P facilities fd).
    { apply (users_facility_invariant P facilities events
               (Users.initial_formData, errs)); [now left|exact Ha]. }
    destruct Hs as [Hs|Hs]; [contradiction|].
    unfold Users.facility_options in Hs.
    apply in_map_iff in Hs as (f & Ef & Hin).
    assert (Hin' : In f facilities).
    { clear -Hin. unfold Users.filteredFacilities in Hin.
      cbv zeta in Hin.
      repeat match type of Hin with
             | context [if ?b then _ else _] => destruct b
             end;
        repeat (apply filter_In in Hin as [Hin _]); exact Hin. }
    exists f. split; [exact Hin'|]. split; [exact Hin|].
    unfold Users.payload. cbn [Users.p_facility_id]. rewrite Hr.
    apply String.eqb_neq in Hf. rewrite Hf. cbn.
    now rewrite <- Ef, Hnum.
  - intros Hr. unfold Users.payload. cbn [Users.p_facility_id].
    apply String.eqb_neq in Hr. now rewrite Hr.
Qed.

End UsersForm.


(** An administrator with a strong password; six letters are enough for
    the login page and not for this form. *)
Lemma users_credentials_pass_login_witness :
  Login.validate
    (Users.login_page
       {| Users.email := "dana@clinic.org"; Users.password := "Abcdef1!";
          Users.role := "admin"; Users.country := ""; Users.city := "";
          Users.facility_id := "" |}) = []
  /\ Login.validate
       (Users.login_page
          {| Users.email := "dana@clinic.org"; Users.password := "abcdef";
             Users.role := "admin"; Users.country := "";
             Users.city := ""; Users.facility_id := "" |}) = []
  /\ Users.validateForm
       {| Users.email := "dana@clinic.org"; Users.password := "abcdef";
          Users.role := "admin"; Users.country := ""; Users.city := "";
          Users.facility_id := "" |}
     = <["password" := VStr "Password must be at least 8 characters"]> ∅.
Proof.
  split; [|split; vm_compute; reflexivity].
  apply (users_credentials_pass_login
           {| Users.email := "dana@clinic.org";
              Users.password := "Abcdef1!"; Users.role := "admin";
              Users.country := ""; Users.city := "";
              Users.facility_id := "" |}).
  - reflexivity.
  - reflexivity.
  - vm_compute. reflexivity.
Defined.

(** A facility of Kenya is chosen, then the city is changed. *)
Lemma users_facility_invariant_witness :
  Users.facility_id
    (fst (Users.changes [("country", "Kenya"); ("facility_id", "12")]
            (Users.initial_formData, ∅))) = "12"
  /\ Users.chosen_is_shown Sample.platform Directory.facilities
       (fst (Users.changes
               [("country", "Kenya"); ("facility_id", "12");
                ("city", "Nairobi")]
               (Users.initial_formData, ∅))).
Proof.
  split; [reflexivity|].
  apply (users_facility_invariant Sample.platform Directory.facilities
           [("country", "Kenya"); ("facility_id", "12");
            ("city", "Nairobi")] (Users.initial_formData, ∅)).
  - left. reflexivity.
  - repeat split; intros H; try discriminate H.
    right. vm_compute. auto.
Defined.

(** A reporter for the facility of Mombasa, and a monitor. *)
Lemma users_payload_facility_witness :
  Users.p_facility_id
    (Users.payload Doubles.nearest
       (fst (Users.changes
               [("email", "r@h.org"); ("password", "Abcdef1!");
                ("country", "Kenya"); ("city", "Mombasa");
                ("facility_id", "12")]
               (Users.initial_formData, ∅))))
    = Some (JsText.Integer 12)
  /\ Users.p_facility_id
       (Users.payload Doubles.nearest
          (fst (Users.changes
                  [("email", "r@h.org"); ("password", "Abcdef1!");
                   ("facility_id", "3"); ("role", "monitor")]
                  (Users.initial_formData, ∅)))) = None.
Proof.
  assert (Hnum : forall f, In f Directory.facilities ->
            JsText.parseInt Doubles.nearest
              (NumberToString Sample.platform (AdminFacility.id f))
            = JsText.Integer (AdminFacility.id f)).
  { intros f [<-|[<-|[<-|[]]]]; vm_compute; reflexivity. }
  split.
  - assert (Ha : Users.admissible Sample.platform Directory.facilities
                   [("email", "r@h.org"); ("password", "Abcdef1!");
                    ("country", "Kenya"); ("city", "Mombasa");
                    ("facility_id", "12")] (Users.initial_formData, ∅)).
    { repeat split; intros H; try discriminate H.
      right. vm_compute. auto. }
    destruct (users_payload_facility Sample.platform Doubles.nearest
                Directory.facilities _ ∅ Hnum Ha eq_refl) as [H _].
    destruct (H eq_refl) as (f & _ & Hin & Hp).
    vm_compute in Hin. destruct Hin as [<-|[]]. exact Hp.
  - assert (Ha : Users.admissible Sample.platform Directory.facilities
                   [("email", "r@h.org"); ("password", "Abcdef1!");
                    ("facility_id", "3"); ("role", "monitor")]
                   (Users.initial_formData, ∅)).
    { repeat split; intros H; try discriminate H.
      right. vm_compute. auto. }
    destruct (users_payload_facility Sample.platform Doubles.nearest
                Directory.facilities _ ∅ Hnum Ha eq_refl) as [_ H].
    apply H. discriminate.
Defined.
